(** * ETL pipeline (python-logging-mastery): extract, transform, load

    A shallow embedding of [etl/extractor.py], [etl/transformer.py],
    [etl/loader.py] and [main.py], and the properties of the pipeline
    proved over it.

    Conventions of the embedding.
    - A Python dict with string keys is a [gmap string _]; [d[k]] is
      [row_index] (raises [KeyError] when the key is absent), [d.get(k)]
      is the lookup [d !! k].
    - A computation that may raise is a value of [py A]: [Ok a] or
      [Raise e].  A [try]/[except (ValueError, TypeError)] block catches
      exactly the exceptions for which [caught] answers [true].
    - Python's [float], the built-ins [int()], [float()], [round()] and
      [datetime.strptime]/[strftime] are an interface ([PyRuntime]); every
      theorem holds for every implementation of it.
    - [random], the files read by the extractor and the SQLite store are
      explicit arguments: the draws of the generator, the content of the
      files and the state of the connection. *)

From stdpp Require Import gmap strings list fin_maps pretty.
From Stdlib Require Import ZArith QArith Ascii.

Local Open Scope string_scope.
Local Open Scope Z_scope.

(* ===================================================================== *)
(** ** Exceptions and the result type *)
(* ===================================================================== *)

Inductive exn : Type :=
  | KeyError (key : string)
  | ValueError
  | TypeError
  | OverflowError
  | RuntimeError (msg : string)
  | InterfaceError.              (* sqlite3: a value that cannot be bound *)

Inductive py (A : Type) : Type :=
  | Ok (a : A)
  | Raise (e : exn).

Arguments Ok {A} a.
Arguments Raise {A} e.

#[global] Instance py_ret : MRet py := fun _ a => Ok a.
#[global] Instance py_bind : MBind py := fun _ _ f m =>
  match m with
  | Ok a => f a
  | Raise e => Raise e
  end.

(** The exceptions named by [except (ValueError, TypeError)]. *)
Definition caught (e : exn) : bool :=
  match e with
  | ValueError | TypeError => true
  | _ => false
  end.


(* ===================================================================== *)
(** ** Values and rows *)
(* ===================================================================== *)

(** The values a field of a row holds: [None] and [str] as
    [csv.DictReader] yields them, [int] and [float] as [validate_row] and
    the JSON catalog store them, and the list of [str] kept under
    [anomaly_flags]. *)
Inductive value (F : Type) : Type :=
  | VNone
  | VStr (s : string)
  | VInt (z : Z)
  | VFloat (f : F)
  | VList (l : list string).

Arguments VNone {F}.
Arguments VStr {F} s.
Arguments VInt {F} z.
Arguments VFloat {F} f.
Arguments VList {F} l.

#[global] Instance value_eq_dec {F} `{EqDecision F} : EqDecision (value F).
Proof. solve_decision. Defined.

Definition value_to_sum {F} (v : value F) : unit + string + Z + F + list string :=
  match v with
  | VNone => inl (inl (inl (inl tt)))
  | VStr s => inl (inl (inl (inr s)))
  | VInt z => inl (inl (inr z))
  | VFloat f => inl (inr f)
  | VList l => inr l
  end.

Definition value_of_sum {F} (x : unit + string + Z + F + list string) : value F :=
  match x with
  | inl (inl (inl (inl _))) => VNone
  | inl (inl (inl (inr s))) => VStr s
  | inl (inl (inr z)) => VInt z
  | inl (inr f) => VFloat f
  | inr l => VList l
  end.

#[global] Instance value_countable {F} `{Countable F} : Countable (value F).
Proof.
  apply (inj_countable' value_to_sum value_of_sum).
  intros []; reflexivity.
Defined.

(** [d[k]]: the value under [k], or [KeyError]. *)
Definition row_index {V} (d : gmap string V) (k : string) : py V :=
  match d !! k with
  | Some v => Ok v
  | None => Raise (KeyError k)
  end.

(* ===================================================================== *)
(** ** The runtime interface: floats, conversions, dates *)
(* ===================================================================== *)

Class PyRuntime (F D : Type) : Type := {
  (** the float a decimal literal of the source denotes *)
  flt_lit : Q → F;
  (** [float(s)] on a [str]; [None] is [ValueError] *)
  float_of_string : string → option F;
  (** the conversion of an [int] to [float]; [None] is [OverflowError] *)
  float_of_Z : Z → option F;
  (** [int(s)] on a [str]; [None] is [ValueError] *)
  int_of_string : string → option Z;
  (** [int(f)] on a [float]: [ValueError] on nan, [OverflowError] on an
      infinity *)
  int_of_float : F → py Z;
  (** comparison of a float with an integer; [None] when unordered (nan) *)
  flt_cmp_int : F → Z → option comparison;
  (** float multiplication and [round(_, 2)] *)
  fmul : F → F → F;
  round2 : F → F;
  (** [datetime.strptime(s, fmt)] on a [str] ([None] is [ValueError]) and
      [d.strftime(fmt)] *)
  strptime : string → string → option D;
  strftime : D → string → string;
  (** [0.0 == 0] *)
  flt_zero_cmp : flt_cmp_int (flt_lit 0) 0 = Some Eq
}.

Section Transformer.

Context {F D : Type} `{Countable F} {RT : PyRuntime F D}.

Abbreviation val := (value F).
Abbreviation row := (gmap string (value F)).

Definition flt_lt (f : F) (z : Z) : bool :=
  match flt_cmp_int f z with Some Lt => true | _ => false end.
Definition flt_eq (f : F) (z : Z) : bool :=
  match flt_cmp_int f z with Some Eq => true | _ => false end.
Definition flt_gt (f : F) (z : Z) : bool :=
  match flt_cmp_int f z with Some Gt => true | _ => false end.

(** Truth value of an object, as [not x] and [if x] test it. *)
Definition truthy (v : val) : bool :=
  match v with
  | VNone => false
  | VStr s => negb (String.eqb s "")
  | VInt z => negb (z =? 0)
  | VFloat f => negb (flt_eq f 0)
  | VList l => negb (bool_decide (l = []))
  end.

(** Truth value of [d.get(k)]: an absent key gives [None], which is false. *)
Definition get_truthy (d : row) (k : string) : bool :=
  match d !! k with
  | Some v => truthy v
  | None => false
  end.

(** [int(v)] *)
Definition py_int (v : val) : py Z :=
  match v with
  | VNone => Raise TypeError
  | VStr s => match int_of_string s with Some z => Ok z | None => Raise ValueError end
  | VInt z => Ok z
  | VFloat f => int_of_float f
  | VList _ => Raise TypeError
  end.

(** [float(v)] *)
Definition py_float (v : val) : py F :=
  match v with
  | VNone => Raise TypeError
  | VStr s => match float_of_string s with Some f => Ok f | None => Raise ValueError end
  | VInt z => match float_of_Z z with Some f => Ok f | None => Raise OverflowError end
  | VFloat f => Ok f
  | VList _ => Raise TypeError
  end.

(** [datetime.strptime(v, fmt)] *)
Definition py_strptime (v : val) (fmt : string) : py D :=
  match v with
  | VStr s => match strptime s fmt with Some d => Ok d | None => Raise ValueError end
  | _ => Raise TypeError
  end.

(** [q * p] for an [int] [q] and a [float] [p]: [q] is converted first. *)
Definition int_mul_float (q : Z) (p : F) : py F :=
  match float_of_Z q with
  | Some fq => Ok (fmul fq p)
  | None => Raise OverflowError
  end.

(* --------------------------------------------------------------------- *)
(** *** [validate_row] *)
(* --------------------------------------------------------------------- *)

Definition date_formats : list string :=
  ["%Y-%m-%d"; "%d/%m/%Y"; "%m-%d-%Y"; "%b %d %Y"].

(** The quantity block's [try] body: the cleaned quantity and whether
    [invalid_quantity] is recorded. *)
Definition quantity_body (r : row) : py (Z * bool) :=
  v ← row_index r "quantity";
  quantity ← py_int v;
  if quantity <=? 0 then Ok (1, true) else Ok (quantity, false).

(** The price block's [try] body: the cleaned price and the issue
    recorded, if any. *)
Definition price_body (r : row) : py (F * option string) :=
  price ← (if get_truthy r "unit_price"
           then v ← row_index r "unit_price"; py_float v
           else Ok (flt_lit 0));
  if flt_lt price 0 then Ok (flt_lit 0, Some "negative_price")
  else if flt_eq price 0 then Ok (price, Some "zero_price")
  else Ok (price, None).

(** The loop over [date_formats]: the first format that parses wins. *)
Fixpoint parse_order_date (r : row) (fmts : list string) : py (option D) :=
  match fmts with
  | [] => Ok None
  | fmt :: rest =>
      match v ← row_index r "order_date"; py_strptime v fmt with
      | Ok d => Ok (Some d)
      | Raise e => if caught e then parse_order_date r rest else Raise e
      end
  end.

(** The email block: [cleaned] and [issues] after it. *)
Definition email_fix (r : row) : row * list string :=
  if negb (get_truthy r "email")
  then (<["email" := VStr "unknown@placeholder.com"]> r, ["missing_email"])
  else (r, []).

Definition validate_row (r : row) (row_num : nat)
  : py (bool * option row * list string) :=
  if negb (get_truthy r "order_id") then Ok (false, None, ["missing_order_id"])
  else if negb (get_truthy r "product_id") then Ok (false, None, ["missing_product_id"])
  else
    (* cleaned = dict(row); issues = [] *)
    let '(cleaned, issues) := email_fix r in
    match quantity_body r with
    | Raise e =>
        if caught e then Ok (false, None, ["invalid_quantity_type"]) else Raise e
    | Ok (quantity, fixed) =>
        let issues := if fixed then (issues ++ ["invalid_quantity"])%list else issues in
        let cleaned := <["quantity" := VInt quantity]> cleaned in
        match price_body r with
        | Raise e =>
            if caught e then Ok (false, None, ["invalid_price_type"]) else Raise e
        | Ok (price, issue) =>
            let issues := match issue with Some i => (issues ++ [i])%list | None => issues end in
            let cleaned := <["unit_price" := VFloat price]> cleaned in
            parsed_date ← parse_order_date r date_formats;
            match parsed_date with
            | None => Ok (false, None, ["unparseable_date"])
            | Some d =>
                let cleaned := <["order_date" := VStr (strftime d "%Y-%m-%d")]> cleaned in
                total ← int_mul_float quantity price;
                let cleaned := <["total" := VFloat (round2 total)]> cleaned in
                Ok (true, Some cleaned, issues)
            end
        end
    end.

(* --------------------------------------------------------------------- *)
(** *** Loops *)
(* --------------------------------------------------------------------- *)

(** [for x in l: s = body(s, x)], stopping at the first exception. *)
Fixpoint for_loop {A S} (body : S → A → py S) (s : S) (l : list A) : py S :=
  match l with
  | [] => Ok s
  | x :: l' => s' ← body s x; for_loop body s' l'
  end.

(** [enumerate(l, start)] *)
Definition enumerate {A} (l : list A) (start : nat) : list (nat * A) :=
  zip (seq start (length l)) l.

(** Only hashable objects are keys of a dict or members of a set. *)
Definition hash_key (v : val) : py val :=
  match v with
  | VList _ => Raise TypeError
  | _ => Ok v
  end.

(** [v > z] and [v < z] for a number [z]. *)
Definition py_gt (v : val) (z : Z) : py bool :=
  match v with
  | VInt x => Ok (z <? x)
  | VFloat f => Ok (flt_gt f z)
  | _ => Raise TypeError
  end.

Definition py_lt (v : val) (z : Z) : py bool :=
  match v with
  | VInt x => Ok (x <? z)
  | VFloat f => Ok (flt_lt f z)
  | _ => Raise TypeError
  end.

(* --------------------------------------------------------------------- *)
(** *** [detect_anomalies] *)
(* --------------------------------------------------------------------- *)

(** 500.00 and 20 are both whole numbers; a comparison with either is a
    comparison with that integer. *)
Definition HIGH_VALUE_ORDER_THRESHOLD : Z := 500.
Definition HIGH_QUANTITY_THRESHOLD : Z := 20.
Definition LOW_STOCK_THRESHOLD : Z := 10.

Definition get_default (d : row) (k : string) (dflt : val) : val :=
  default dflt (d !! k).

Definition detect_anomalies (r : row) (row_num : nat) : py (list string) :=
  let alerts : list string := [] in
  let total := get_default r "total" (VInt 0) in
  high ← py_gt total HIGH_VALUE_ORDER_THRESHOLD;
  alerts ← (if high : bool
            then _ ← row_index r "order_id"; Ok (alerts ++ ["high_value"])%list
            else Ok alerts);
  let quantity := get_default r "quantity" (VInt 0) in
  many ← py_gt quantity HIGH_QUANTITY_THRESHOLD;
  if many : bool
  then _ ← row_index r "order_id"; Ok (alerts ++ ["high_quantity"])%list
  else Ok alerts.

(* --------------------------------------------------------------------- *)
(** *** [enrich_with_products] *)
(* --------------------------------------------------------------------- *)

(** [{p["product_id"]: p for p in product_catalog}]: a later entry
    replaces an earlier one with the same id. *)
Definition lookup_step (m : gmap val row) (p : row) : py (gmap val row) :=
  pid ← row_index p "product_id";
  k ← hash_key pid;
  Ok (<[k := p]> m).

Definition build_lookup (product_catalog : list row) : py (gmap val row) :=
  for_loop lookup_step ∅ product_catalog.

(** [sorted(s)] needs its elements pairwise comparable: all [str], or all
    numbers, or all lists; a single element is never compared. *)
Definition sort_class (v : val) : nat :=
  match v with
  | VNone => 0 | VStr _ => 1 | VInt _ | VFloat _ => 2 | VList _ => 3
  end%nat.

Definition sortable (l : list val) : bool :=
  match l with
  | [] | [_] => true
  | v :: l' =>
      negb (sort_class v =? 0)%nat &&
      forallb (fun w => (sort_class w =? sort_class v)%nat) l'
  end.

(** One iteration of the loop over [rows]; the state is [enriched] and
    [missing_products]. *)
Definition enrich_step (product_lookup : gmap val row)
    (st : list row * gset val) (r : row) : py (list row * gset val) :=
  let '(enriched, missing_products) := st in
  pid ← row_index r "product_id";
  k ← hash_key pid;
  match product_lookup !! k with
  | Some product =>
      (* a catalog entry holds at least its [product_id]: it is truthy *)
      name ← row_index product "name";
      let r := <["product_name" := name]> r in
      category ← row_index product "category";
      let r := <["category" := category]> r in
      stock ← row_index product "stock";
      let r := <["current_stock" := stock]> r in
      (* the debug record reads [row["order_id"]] *)
      _ ← row_index r "order_id";
      _ ← py_lt stock LOW_STOCK_THRESHOLD;
      Ok (enriched ++ [r], missing_products)%list
  | None =>
      let missing_products := missing_products ∪ {[k]} in
      let r := <["product_name" := VStr "UNKNOWN"]> r in
      let r := <["category" := VStr "UNKNOWN"]> r in
      let r := <["current_stock" := VInt (-1)]> r in
      Ok (enriched ++ [r], missing_products)%list
  end.

(** The function up to its [return], with the local [missing_products]
    kept next to [enriched]. *)
Definition enrich_run (rows product_catalog : list row)
  : py (list row * gset val) :=
  product_lookup ← build_lookup product_catalog;
  '(enriched, missing_products) ← for_loop (enrich_step product_lookup) ([], ∅) rows;
  (* the one warning after the loop formats [sorted(missing_products)] *)
  if sortable (elements missing_products)
  then Ok (enriched, missing_products)
  else Raise TypeError.

Definition enrich_with_products (rows product_catalog : list row) : py (list row) :=
  '(enriched, _) ← enrich_run rows product_catalog;
  Ok enriched.

(* --------------------------------------------------------------------- *)
(** *** [check_duplicates] *)
(* --------------------------------------------------------------------- *)

Record dedup_state : Type := {
  seen : gmap val nat;
  unique_rows : list row;
  duplicate_count : nat
}.

Definition dedup_step (st : dedup_state) (r : row) : py dedup_state :=
  order_id ← row_index r "order_id";
  k ← hash_key order_id;
  match seen st !! k with
  | Some _ =>
      Ok {| seen := seen st; unique_rows := unique_rows st;
            duplicate_count := S (duplicate_count st) |}
  | None =>
      Ok {| seen := <[k := length (unique_rows st)]> (seen st);
            unique_rows := (unique_rows st ++ [r])%list;
            duplicate_count := duplicate_count st |}
  end.

(** The loop of [check_duplicates], with its three locals. *)
Definition dedup_run (rows : list row) : py dedup_state :=
  for_loop dedup_step
    {| seen := ∅; unique_rows := []; duplicate_count := 0 |} rows.

Definition check_duplicates (rows : list row) : py (list row) :=
  st ← dedup_run rows; Ok (unique_rows st).

(* --------------------------------------------------------------------- *)
(** *** [run_transformation] *)
(* --------------------------------------------------------------------- *)

(** The dict built by [run_extraction]. *)
Record extracted : Type := {
  sales_data : list row;
  product_catalog : list row;
  api_data : list row
}.

Record validation_state : Type := {
  valid_rows : list row;
  skipped_rows : nat;
  total_issues : gmap string nat
}.

Definition count_issue (m : gmap string nat) (issue : string) : gmap string nat :=
  <[issue := (default 0 (m !! issue) + 1)%nat]> m.

Definition validate_step (st : validation_state) (ir : nat * row)
  : py validation_state :=
  let '(i, r) := ir in
  '(is_valid, cleaned, issues) ← validate_row r i;
  match is_valid, cleaned with
  | true, Some cleaned =>
      Ok {| valid_rows := (valid_rows st ++ [cleaned])%list;
            skipped_rows := skipped_rows st;
            total_issues := foldl count_issue (total_issues st) issues |}
  | _, _ =>
      Ok {| valid_rows := valid_rows st;
            skipped_rows := S (skipped_rows st);
            total_issues := total_issues st |}
  end.

Definition validate_all (raw_rows : list row) : py validation_state :=
  for_loop validate_step
    {| valid_rows := []; skipped_rows := 0; total_issues := ∅ |}
    (enumerate raw_rows 1).

Definition flag_step (st : list row * nat) (ir : nat * row) : py (list row * nat) :=
  let '(flagged, anomaly_count) := st in
  let '(i, r) := ir in
  alerts ← detect_anomalies r i;
  let r := <["anomaly_flags" := VList alerts]> r in
  Ok (flagged ++ [r], if bool_decide (alerts = []) then anomaly_count
                      else S anomaly_count)%list.

Definition run_transformation (extracted_data : extracted) : py (list row) :=
  let raw_rows := sales_data extracted_data in
  let product_catalog := product_catalog extracted_data in
  st ← validate_all raw_rows;
  valid_rows ← check_duplicates (valid_rows st);
  '(valid_rows, anomaly_count) ← for_loop flag_step ([], 0%nat) (enumerate valid_rows 1);
  enrich_with_products valid_rows product_catalog.

End Transformer.

(* ===================================================================== *)
(** ** The transformer's contracts *)
(* ===================================================================== *)

Section DedupSpec.

Context {F : Type} `{Countable F}.

Abbreviation row := (gmap string (value F)).

(** The spec's dedupe, in its words: the first occurrence of each
    [order_id] wins and later occurrences are dropped.  [earlier] holds
    the [order_id] of every row met so far, kept or not. *)
Fixpoint first_occurrences (earlier : list (option (value F))) (rows : list row)
  : list row :=
  match rows with
  | [] => []
  | r :: rest =>
      if bool_decide (r !! "order_id" ∈ earlier)
      then first_occurrences (r !! "order_id" :: earlier) rest
      else r :: first_occurrences (r !! "order_id" :: earlier) rest
  end.

(** A row [check_duplicates] can file: it has an [order_id], and the
    [order_id] is hashable. *)
Definition keyed (r : row) : Prop :=
  ∃ k, r !! "order_id" = Some k ∧ hash_key k = Ok k.


End DedupSpec.

Section EnrichSpec.

Context {F : Type} `{Countable F}.

Abbreviation row := (gmap string (value F)).


(** The row [enrich_with_products] leaves for an id that is not in the
    catalog. *)
Definition unknown_product (r : row) : row :=
  <["current_stock" := VInt (-1)]>
    (<["category" := VStr "UNKNOWN"]>
       (<["product_name" := VStr "UNKNOWN"]> r)).

(** The row it leaves for an id found in the catalog. *)
Definition known_product (name category stock : value F) (r : row) : row :=
  <["current_stock" := stock]>
    (<["category" := category]>
       (<["product_name" := name]> r)).

End EnrichSpec.

(* ===================================================================== *)
(** ** Extractor *)
(* ===================================================================== *)

(** What [json.load] makes of a file: a [JSONDecodeError], or the parsed
    document.  A catalog document is an object whose members are arrays
    of flat records. *)
Inductive json_content (F : Type) : Type :=
  | JsonMalformed
  | JsonData (data : gmap string (list (gmap string (value F)))).

Arguments JsonMalformed {F}.
Arguments JsonData {F} data.

(** The files the extractor can see, by path: for a CSV file the rows
    [csv.DictReader] yields, for a JSON file its content.  A path that is
    not in the map does not exist. *)
Record files (F : Type) : Type := {
  csv_files : gmap string (list (gmap string (value F)));
  json_files : gmap string (json_content F)
}.

Arguments csv_files {F} _.
Arguments json_files {F} _.

Section Extractor.

Context {F D : Type} `{Countable F} {RT : PyRuntime F D}.

Abbreviation row := (gmap string (value F)).

Definition extract_csv (fs : files F) (file_path : string) : list row :=
  match csv_files fs !! file_path with
  | None => []                       (* file not found *)
  | Some rows => rows
  end.

Definition extract_json (fs : files F) (file_path : string) (key : string)
  : list row :=
  match json_files fs !! file_path with
  | None => []                       (* file not found *)
  | Some JsonMalformed => []         (* json.JSONDecodeError *)
  | Some (JsonData data) =>
      match data !! key with
      | None => []                   (* key not in data *)
      | Some records => records
      end
  end.

(** [random.choice(seq)], given the index the generator draws. *)
Definition random_choice (pick : nat) (choices : list Z) : Z :=
  nth (pick mod length choices) choices 0.

Definition api_statuses : list Z := [200; 200; 503; 500; 200].

Definition api_rows : list row :=
  [ {[ "source" := VStr "api"; "order_id" := VStr "API-001";
       "amount" := VFloat (flt_lit 150) ]};
    {[ "source" := VStr "api"; "order_id" := VStr "API-002";
       "amount" := VFloat (flt_lit (151 # 2)) ]} ].

(** The loop over [range(1, max_retries + 1)]; [picks a] is the draw of
    the generator at attempt [a]. *)
Fixpoint api_loop (picks : nat → nat) (attempts : list nat) : list row :=
  match attempts with
  | [] => []
  | attempt :: rest =>
      let simulated_status := random_choice (picks attempt) api_statuses in
      if simulated_status =? 200 then api_rows
      else api_loop picks rest
  end.

Definition extract_from_api (picks : nat → nat) (max_retries : nat) : list row :=
  api_loop picks (seq 1 max_retries).

Definition run_extraction (fs : files F) (picks : nat → nat)
    (csv_path json_path : string) : py (extracted (F:=F)) :=
  let results :=
    {| sales_data := extract_csv fs csv_path;
       product_catalog := extract_json fs json_path "products";
       api_data := extract_from_api picks 3 |} in
  if bool_decide (sales_data results = [])
  then Raise (RuntimeError "Extraction failed: no sales data")
  else Ok results.

End Extractor.

(* ===================================================================== *)
(** ** Loader *)
(* ===================================================================== *)

(** A row of [clean_sales], in column order.  [anomaly_flags] holds the
    object whose [str()] is stored. *)
Record dbrow (F : Type) : Type := {
  c_order_id : value F;
  c_customer_name : value F;
  c_email : value F;
  c_product_id : value F;
  c_product_name : value F;
  c_category : value F;
  c_quantity : value F;
  c_unit_price : value F;
  c_total : value F;
  c_order_date : value F;
  c_payment_method : value F;
  c_current_stock : value F;
  c_anomaly_flags : value F
}.

Arguments c_order_id {F} _.
Arguments c_customer_name {F} _.
Arguments c_email {F} _.
Arguments c_product_id {F} _.
Arguments c_product_name {F} _.
Arguments c_category {F} _.
Arguments c_quantity {F} _.
Arguments c_unit_price {F} _.
Arguments c_total {F} _.
Arguments c_order_date {F} _.
Arguments c_payment_method {F} _.
Arguments c_current_stock {F} _.
Arguments c_anomaly_flags {F} _.

(** The calls made on the connection and its cursor. *)
Inductive dbop (F : Type) : Type :=
  | OpExecute (r : dbrow F)
  | OpCommit
  | OpRollback
  | OpClose.

Arguments OpExecute {F} r.
Arguments OpCommit {F}.
Arguments OpRollback {F}.
Arguments OpClose {F}.

(** An open connection: the rows of the table that are committed, the
    rows inserted by the open transaction, and the calls made so far. *)
Record conn (F : Type) : Type := {
  committed : list (dbrow F);
  pending : list (dbrow F);
  journal : list (dbop F)
}.

Arguments committed {F} _.
Arguments pending {F} _.
Arguments journal {F} _.

Section Loader.

Context {F D : Type} `{Countable F} {RT : PyRuntime F D}.

Abbreviation val := (value F).
Abbreviation row := (gmap string (value F)).

Definition BATCH_SIZE : nat := 10.

(** [create_database]: the table is created if it is missing; [db] is
    what the file holds from earlier runs. *)
Definition create_database (db : list (dbrow F)) : conn F :=
  {| committed := db; pending := []; journal := [] |}.

(** A parameter is bound if SQLite has a type for it: [None], [str],
    [float], and an [int] of at most 64 bits. *)
Definition bind_param (v : val) : py val :=
  match v with
  | VList _ => Raise InterfaceError
  | VInt z =>
      if (- 2 ^ 63 <=? z) && (z <? 2 ^ 63) then Ok v else Raise OverflowError
  | _ => Ok v
  end.

(** Two primary keys collide when they are equal; NULL collides with
    nothing. *)
Definition pk_conflict (k k' : val) : bool :=
  match k with
  | VNone => false
  | _ => bool_decide (k = k')
  end.

(** [cursor.execute(insert_sql, ...)] with INSERT OR IGNORE: the new
    state of the connection and [cursor.rowcount]. *)
Definition db_execute (c : conn F) (r : dbrow F) : conn F * nat :=
  let visible := (committed c ++ pending c)%list in
  if existsb (fun r' => pk_conflict (c_order_id r) (c_order_id r')) visible
  then ({| committed := committed c; pending := pending c;
           journal := (journal c ++ [OpExecute r])%list |}, 0%nat)
  else ({| committed := committed c; pending := (pending c ++ [r])%list;
           journal := (journal c ++ [OpExecute r])%list |}, 1%nat).

Definition db_commit (c : conn F) : conn F :=
  {| committed := (committed c ++ pending c)%list; pending := [];
     journal := (journal c ++ [OpCommit])%list |}.

Definition db_rollback (c : conn F) : conn F :=
  {| committed := committed c; pending := [];
     journal := (journal c ++ [OpRollback])%list |}.

Definition db_close (c : conn F) : conn F :=
  {| committed := committed c; pending := [];
     journal := (journal c ++ [OpClose])%list |}.

(** The tuple of parameters [load_batch] builds from a row. *)
Definition row_params (r : row) : py (dbrow F) :=
  order_id ← row_index r "order_id";
  customer_name ← row_index r "customer_name";
  email ← row_index r "email";
  product_id ← row_index r "product_id";
  let product_name := get_default r "product_name" (VStr "UNKNOWN") in
  let category := get_default r "category" (VStr "UNKNOWN") in
  quantity ← row_index r "quantity";
  unit_price ← row_index r "unit_price";
  total ← row_index r "total";
  order_date ← row_index r "order_date";
  payment_method ← row_index r "payment_method";
  let current_stock := get_default r "current_stock" (VInt (-1)) in
  let anomaly_flags := get_default r "anomaly_flags" (VList []) in
  order_id ← bind_param order_id;
  customer_name ← bind_param customer_name;
  email ← bind_param email;
  product_id ← bind_param product_id;
  product_name ← bind_param product_name;
  category ← bind_param category;
  quantity ← bind_param quantity;
  unit_price ← bind_param unit_price;
  total ← bind_param total;
  order_date ← bind_param order_date;
  payment_method ← bind_param payment_method;
  current_stock ← bind_param current_stock;
  Ok {| c_order_id := order_id; c_customer_name := customer_name;
        c_email := email; c_product_id := product_id;
        c_product_name := product_name; c_category := category;
        c_quantity := quantity; c_unit_price := unit_price;
        c_total := total; c_order_date := order_date;
        c_payment_method := payment_method;
        c_current_stock := current_stock;
        c_anomaly_flags := anomaly_flags |}.

(** One iteration of the loop of [load_batch]; the state is the
    connection, [inserted] and [skipped].  INSERT OR IGNORE settles a
    primary-key conflict by skipping the row and [clean_sales] declares no
    other constraint, so the [sqlite3.IntegrityError] handler is never
    entered; an exception of [row_params] is not an [IntegrityError] and
    leaves the function. *)
Definition load_step (st : conn F * nat * nat) (r : row) : py (conn F * nat * nat) :=
  let '(c, inserted, skipped) := st in
  params ← row_params r;
  let '(c, rowcount) := db_execute c params in
  if (0 <? rowcount)%nat
  then Ok (c, S inserted, skipped)
  else Ok (c, inserted, S skipped).

Definition load_batch (c : conn F) (batch : list row) (batch_num : nat)
  : py (conn F * nat * nat) :=
  for_loop load_step (c, 0%nat, 0%nat) batch.

(** [random.random() < 0.3] is evaluated only when [batch_num] is the
    last batch; [draw] is the number the generator returns then. *)
Definition simulate_connection_issue (batch_num total_batches : nat) (draw : Q) : bool :=
  (batch_num =? total_batches)%nat && negb (Qle_bool (3 # 10) draw).

(** [range(0, stop, step)] *)
Definition py_range (stop step : nat) : list nat :=
  map (fun j => (j * step)%nat) (seq 0 (Nat.div (stop + step - 1) step)).

(** [[cleaned_rows[i:i + BATCH_SIZE] for i in range(0, len(cleaned_rows), BATCH_SIZE)]] *)
Definition batches_of (cleaned_rows : list row) : list (list row) :=
  map (fun i => take BATCH_SIZE (drop i cleaned_rows))
      (py_range (length cleaned_rows) BATCH_SIZE).

(** The locals of [run_loading] when its loop is left; [broke_at] is
    [batch_num] if the loop was left through [break]. *)
Record load_state : Type := {
  connection : conn F;
  total_inserted : nat;
  total_skipped : nat;
  broke_at : option nat
}.

Fixpoint load_loop (total_batches : nat) (draw : Q) (st : load_state)
    (batches : list (nat * list row)) : py load_state :=
  match batches with
  | [] => Ok st
  | (batch_num, batch) :: rest =>
      if simulate_connection_issue batch_num total_batches draw
      then
        Ok {| connection := db_rollback (connection st);
              total_inserted := total_inserted st;
              total_skipped := total_skipped st;
              broke_at := Some batch_num |}
      else
        '(c, inserted, skipped) ← load_batch (connection st) batch batch_num;
        load_loop total_batches draw
          {| connection := db_commit c;
             total_inserted := (total_inserted st + inserted)%nat;
             total_skipped := (total_skipped st + skipped)%nat;
             broke_at := broke_at st |}
          rest
  end.

(** [run_loading] up to [conn.close()]. *)
Definition load_run (cleaned_rows : list row) (db : list (dbrow F)) (draw : Q)
  : py load_state :=
  let c := create_database db in
  let batches := batches_of cleaned_rows in
  let total_batches := length batches in
  st ← load_loop total_batches draw
         {| connection := c; total_inserted := 0; total_skipped := 0;
            broke_at := None |}
         (enumerate batches 1);
  Ok {| connection := db_close (connection st);
        total_inserted := total_inserted st;
        total_skipped := total_skipped st;
        broke_at := broke_at st |}.

Definition run_loading (cleaned_rows : list row) (db : list (dbrow F)) (draw : Q)
  : py (nat * nat) :=
  st ← load_run cleaned_rows db draw;
  Ok (total_inserted st, total_skipped st).

End Loader.

(* ===================================================================== *)
(** ** The loader's contract *)
(* ===================================================================== *)

Section LoaderSpec.

Context {F D : Type} `{Countable F} {RT : PyRuntime F D}.

(** Insert-or-ignore on a table: a row whose key collides is skipped. *)
Definition insert_or_ignore (table : list (dbrow F)) (p : dbrow F)
  : list (dbrow F) :=
  if existsb (fun r' => pk_conflict (c_order_id p) (c_order_id r')) table
  then table
  else (table ++ [p])%list.



End LoaderSpec.

(* ===================================================================== *)
(** ** Orchestrator ([main.py]) *)
(* ===================================================================== *)

Record stats : Type := {
  st_extracted : nat;
  st_transformed : nat;
  st_loaded : nat;
  st_skipped : nat;
  st_errors : nat;
  st_phase_failed : option string
}.

(** What one run sees of the outside: the files, the draws of [random]
    (for each API attempt, and for the one call of [random.random]), and
    the table left by earlier runs. *)
Record world (F : Type) : Type := {
  w_files : files F;
  w_api_picks : nat → nat;
  w_conn_draw : Q;
  w_db : list (dbrow F)
}.

Arguments w_files {F} _.
Arguments w_api_picks {F} _.
Arguments w_conn_draw {F} _.
Arguments w_db {F} _.

Section Orchestrator.

Context {F D : Type} `{Countable F} {RT : PyRuntime F D}.

(** [run_pipeline] returns [stats]; next to it, [calls] lists the stage
    functions it called, in call order. *)
Definition run_pipeline (w : world F) : stats * list string :=
  let stats0 :=
    {| st_extracted := 0; st_transformed := 0; st_loaded := 0;
       st_skipped := 0; st_errors := 0; st_phase_failed := None |} in
  let calls := ["run_extraction"] in
  match run_extraction (w_files w) (w_api_picks w)
          "data/sales_data.csv" "data/products.json" with
  | Raise _ =>
      ({| st_extracted := st_extracted stats0;
          st_transformed := st_transformed stats0;
          st_loaded := st_loaded stats0;
          st_skipped := st_skipped stats0;
          st_errors := S (st_errors stats0);
          st_phase_failed := Some "extraction" |}, calls)
  | Ok extracted_data =>
      let stats1 :=
        {| st_extracted := length (sales_data extracted_data);
           st_transformed := st_transformed stats0;
           st_loaded := st_loaded stats0;
           st_skipped := st_skipped stats0;
           st_errors := st_errors stats0;
           st_phase_failed := st_phase_failed stats0 |} in
      let calls := (calls ++ ["run_transformation"])%list in
      match run_transformation extracted_data with
      | Raise _ =>
          ({| st_extracted := st_extracted stats1;
              st_transformed := st_transformed stats1;
              st_loaded := st_loaded stats1;
              st_skipped := st_skipped stats1;
              st_errors := S (st_errors stats1);
              st_phase_failed := Some "transformation" |}, calls)
      | Ok cleaned_rows =>
          let stats2 :=
            {| st_extracted := st_extracted stats1;
               st_transformed := length cleaned_rows;
               st_loaded := st_loaded stats1;
               st_skipped := st_skipped stats1;
               st_errors := st_errors stats1;
               st_phase_failed := st_phase_failed stats1 |} in
          let calls := (calls ++ ["run_loading"])%list in
          match run_loading cleaned_rows (w_db w) (w_conn_draw w) with
          | Raise _ =>
              ({| st_extracted := st_extracted stats2;
                  st_transformed := st_transformed stats2;
                  st_loaded := st_loaded stats2;
                  st_skipped := st_skipped stats2;
                  st_errors := S (st_errors stats2);
                  st_phase_failed := Some "loading" |}, calls)
          | Ok (inserted, skipped) =>
              ({| st_extracted := st_extracted stats2;
                  st_transformed := st_transformed stats2;
                  st_loaded := inserted;
                  st_skipped := skipped;
                  st_errors := st_errors stats2;
                  st_phase_failed := st_phase_failed stats2 |}, calls)
          end
      end
  end.

End Orchestrator.

(* ===================================================================== *)
(** ** A runtime to compute with *)
(* ===================================================================== *)

(** An exact instance of [PyRuntime] for running the model on concrete
    rows: a number is a count of hundredths, a date is (year, month,
    day), and the parsers read plain ASCII digits. *)
Module Cents.

Definition digit (a : Ascii.ascii) : option Z :=
  let n := Ascii.nat_of_ascii a in
  if (48 <=? n)%nat && (n <=? 57)%nat then Some (Z.of_nat (n - 48)) else None.

Fixpoint digits (s : string) (acc : Z) : option Z :=
  match s with
  | EmptyString => Some acc
  | String a s' =>
      match digit a with
      | Some d => digits s' (10 * acc + d)
      | None => None
      end
  end.

Definition unsigned (s : string) : option Z :=
  match s with
  | EmptyString => None
  | _ => digits s 0
  end.

Definition parse_int (s : string) : option Z :=
  match s with
  | String "-"%char s' => Z.opp <$> unsigned s'
  | _ => unsigned s
  end.

(** [d.dd]: whole part, a point, two decimals. *)
Fixpoint split_point (s : string) (whole : string) : string * option string :=
  match s with
  | EmptyString => (whole, None)
  | String "."%char s' => (whole, Some s')
  | String a s' => split_point s' (whole +:+ String a EmptyString)
  end.

Definition parse_unsigned_cents (s : string) : option Z :=
  match split_point s "" with
  | (w, None) => (fun z => 100 * z) <$> unsigned w
  | (w, Some f) =>
      if (String.length f =? 2)%nat
      then w' ← unsigned w; f' ← unsigned f; Some (100 * w' + f')
      else None
  end.

Definition parse_cents (s : string) : option Z :=
  match s with
  | String "-"%char s' => Z.opp <$> parse_unsigned_cents s'
  | _ => parse_unsigned_cents s
  end.

(** ISO dates only: [YYYY-MM-DD] under the format [%Y-%m-%d]. *)
Definition parse_iso (s fmt : string) : option (Z * Z * Z) :=
  if String.eqb fmt "%Y-%m-%d" && (String.length s =? 10)%nat
  then
    y ← unsigned (String.substring 0 4 s);
    m ← unsigned (String.substring 5 2 s);
    d ← unsigned (String.substring 8 2 s);
    if String.eqb (String.substring 4 1 s) "-" && String.eqb (String.substring 7 1 s) "-"
       && (1 <=? m) && (m <=? 12) && (1 <=? d) && (d <=? 31)
    then Some (y, m, d) else None
  else None.

Definition two (z : Z) : string :=
  if z <? 10 then "0" +:+ pretty z else pretty z.

Definition print_iso (d : Z * Z * Z) (fmt : string) : string :=
  let '(y, m, dd) := d in pretty y +:+ "-" +:+ two m +:+ "-" +:+ two dd.

#[export] Instance runtime : PyRuntime Z (Z * Z * Z) := {|
  flt_lit q := (Qnum (q * 100) / Zpos (Qden (q * 100)))%Z;
  float_of_string := parse_cents;
  float_of_Z z := Some (100 * z);
  int_of_string := parse_int;
  int_of_float f := Ok (Z.quot f 100);
  flt_cmp_int f z := Some (f ?= 100 * z);
  fmul a b := a * b / 100;
  round2 f := f;
  strptime := parse_iso;
  strftime := print_iso;
  flt_zero_cmp := eq_refl
|}.

End Cents.

(* ===================================================================== *)
(** ** Further contracts *)
(* ===================================================================== *)

Section MoreSpec.

Context {F D : Type} `{Countable F} {RT : PyRuntime F D}.

Abbreviation row := (gmap string (value F)).

(** The parse of a date string: the result of the first format of
    [date_formats] that [strptime] accepts. *)
Definition first_format (s : string) : option D :=
  head (omap (strptime s) date_formats).

(** The issues [validate_row] records on a row it keeps, and the reasons
    for which it drops one. *)
Definition correction_tags : list string :=
  ["missing_email"; "invalid_quantity"; "negative_price"; "zero_price"].

Definition fatal_tags : list string :=
  ["missing_order_id"; "missing_product_id"; "invalid_quantity_type";
   "invalid_price_type"; "unparseable_date"].

(** The keys [run_transformation] adds to a validated row. *)
Definition enrichment_keys : list string :=
  ["anomaly_flags"; "product_name"; "category"; "current_stock"].

(** The row [validate_row] returns when every block passes. *)
Definition cleaned_row (r : row) (q : Z) (p : F) (d : D) (t : F) : row :=
  <["total" := VFloat (round2 t)]>
    (<["order_date" := VStr (strftime d "%Y-%m-%d")]>
       (<["unit_price" := VFloat p]>
          (<["quantity" := VInt q]> (email_fix r).1))).

Definition cleaned_issues (r : row) (fixed : bool) (issue : option string)
  : list string :=
  ((email_fix r).2 ++ (if fixed then ["invalid_quantity"] else [])
     ++ match issue with Some i => [i] | None => [] end)%list.

(** The ways through [validate_row], block by block: where it leaves
    and with what. *)
Inductive validate_case (r : row)
  : py (bool * option row * list string) → Prop :=
  | case_no_order_id :
      get_truthy r "order_id" = false →
      validate_case r (Ok (false, None, ["missing_order_id"]))
  | case_no_product_id :
      get_truthy r "order_id" = true → get_truthy r "product_id" = false →
      validate_case r (Ok (false, None, ["missing_product_id"]))
  | case_quantity_rejected ex :
      get_truthy r "order_id" = true → get_truthy r "product_id" = true →
      quantity_body r = Raise ex → caught ex = true →
      validate_case r (Ok (false, None, ["invalid_quantity_type"]))
  | case_quantity_raises ex :
      get_truthy r "order_id" = true → get_truthy r "product_id" = true →
      quantity_body r = Raise ex → caught ex = false →
      validate_case r (Raise ex)
  | case_price_rejected q fixed ex :
      get_truthy r "order_id" = true → get_truthy r "product_id" = true →
      quantity_body r = Ok (q, fixed) →
      price_body r = Raise ex → caught ex = true →
      validate_case r (Ok (false, None, ["invalid_price_type"]))
  | case_price_raises q fixed ex :
      get_truthy r "order_id" = true → get_truthy r "product_id" = true →
      quantity_body r = Ok (q, fixed) →
      price_body r = Raise ex → caught ex = false →
      validate_case r (Raise ex)
  | case_date_raises q fixed p issue ex :
      get_truthy r "order_id" = true → get_truthy r "product_id" = true →
      quantity_body r = Ok (q, fixed) → price_body r = Ok (p, issue) →
      parse_order_date r date_formats = Raise ex →
      validate_case r (Raise ex)
  | case_date_rejected q fixed p issue :
      get_truthy r "order_id" = true → get_truthy r "product_id" = true →
      quantity_body r = Ok (q, fixed) → price_body r = Ok (p, issue) →
      parse_order_date r date_formats = Ok None →
      validate_case r (Ok (false, None, ["unparseable_date"]))
  | case_total_raises q fixed p issue d ex :
      get_truthy r "order_id" = true → get_truthy r "product_id" = true →
      quantity_body r = Ok (q, fixed) → price_body r = Ok (p, issue) →
      parse_order_date r date_formats = Ok (Some d) →
      int_mul_float q p = Raise ex →
      validate_case r (Raise ex)
  | case_accepted q fixed p issue d t :
      get_truthy r "order_id" = true → get_truthy r "product_id" = true →
      quantity_body r = Ok (q, fixed) → price_body r = Ok (p, issue) →
      parse_order_date r date_formats = Ok (Some d) →
      int_mul_float q p = Ok t →
      validate_case r
        (Ok (true, Some (cleaned_row r q p d t), cleaned_issues r fixed issue)).

(** What the loop of [check_duplicates] keeps true of [seen] and
    [unique_rows]: [seen] files each kept row, by its [order_id], under
    its position in [unique_rows], and nothing else. *)
Definition seen_inv (st : dedup_state (F:=F)) : Prop :=
  (∀ k i, seen st !! k = Some i →
     ∃ r, unique_rows st !! i = Some r ∧ r !! "order_id" = Some k) ∧
  (∀ i r k, unique_rows st !! i = Some r → r !! "order_id" = Some k →
     seen st !! k = Some i).

(** A catalog entry [enrich_with_products] can use: a hashable
    [product_id], a [name], a [category] and a numeric [stock]. *)
Definition catalog_entry_ok (p : row) : Prop :=
  ∃ pid name category stock,
    p !! "product_id" = Some pid ∧ hash_key pid = Ok pid ∧
    p !! "name" = Some name ∧ p !! "category" = Some category ∧
    p !! "stock" = Some stock ∧
    ((∃ z, stock = VInt z) ∨ (∃ f, stock = VFloat f)).

(** A sales row it can enrich: an [order_id] and a string [product_id],
    as a validated CSV row has them. *)
Definition enrichable (r : row) : Prop :=
  is_Some (r !! "order_id") ∧ ∃ s, r !! "product_id" = Some (VStr s).

(** [r'] is [c] with the enrichment keys set: what the last two steps
    of [run_transformation] do to a validated row. *)
Definition adds_enrichment (c r' : row) : Prop :=
  (∀ k, k ∉ enrichment_keys → r' !! k = c !! k) ∧
  Forall (λ k, is_Some (r' !! k)) enrichment_keys.

(** What [enrich_with_products] makes of one row. *)
Definition enriched_from (r e : row) : Prop :=
  e = unknown_product r ∨ ∃ name category stock, e = known_product name category stock r.

(** The keys [load_batch] reads with [row[...]]. *)
Definition indexed_keys : list string :=
  ["order_id"; "customer_name"; "email"; "product_id"; "quantity";
   "unit_price"; "total"; "order_date"; "payment_method"].

End MoreSpec.

(* ===================================================================== *)
(** ** Sample data *)
(* ===================================================================== *)

(** Rows as [csv.DictReader] yields them, a catalog, and a store, over
    the [Cents] runtime. *)
Module Samples.
Import Cents.

Definition order (order_id product_id quantity unit_price : string)
  : gmap string (value Z) :=
  {[ "order_id" := VStr order_id; "customer_name" := VStr "Ada";
     "email" := VStr "ada@example.com"; "product_id" := VStr product_id;
     "quantity" := VStr quantity; "unit_price" := VStr unit_price;
     "order_date" := VStr "2024-03-09"; "payment_method" := VStr "card";
     "total" := VStr "1.00" ]}.

Definition order_a := order "A-1" "P-1" "2" "12.50".
Definition order_b := order "A-2" "P-9" "-3" "4.00".
Definition order_bad_quantity := order "A-3" "P-1" "two" "4.00".
Definition order_no_price := order "A-4" "P-1" "1" "".
Definition order_bad_price := order "A-5" "P-1" "1" "cheap".
Definition order_negative_price := order "A-6" "P-1" "1" "-5.00".
Definition order_zero_price := order "A-7" "P-1" "1" "0.00".
(** a row of a file whose header has no [quantity] column *)
Definition order_no_quantity := delete "quantity" order_a.

Definition order_big := order "A-8" "P-1" "30" "20.00".
Definition order_no_email := <["email" := VStr ""]> order_a.
Definition order_bad_date := <["order_date" := VStr "next week"]> order_a.
(** a row of a file whose header has no [order_date] column *)
Definition order_no_date := delete "order_date" order_a.

Definition pen : gmap string (value Z) :=
  {[ "product_id" := VStr "P-1"; "name" := VStr "Pen";
     "category" := VStr "Office"; "stock" := VInt 5 ]}.

Definition catalog : list (gmap string (value Z)) := [pen].

(** [validate_row] on a row known to be accepted; [∅] otherwise. *)
Definition cleaned (r : gmap string (value Z)) : gmap string (value Z) :=
  match validate_row r 1 with
  | Ok (_, Some c, _) => c
  | _ => ∅
  end.

Definition run_files (rows : list (gmap string (value Z))) : files Z :=
  {| csv_files := {[ "data/sales_data.csv" := rows ]};
     json_files := {[ "data/products.json" :=
                        JsonData {[ "products" := catalog ]} ]} |}.

(** A run whose API answers 200 at once and whose store is new;
    [draw] is what [random.random()] returns. *)
Definition run_world (rows : list (gmap string (value Z))) (draw : Q)
  : world Z :=
  {| w_files := run_files rows; w_api_picks := λ _, 0%nat;
     w_conn_draw := draw; w_db := [] |}.




End Samples.

(* ===================================================================== *)
(** ** The result type and loops *)
(* ===================================================================== *)

Lemma bind_ok {A B} (a : A) (f : A → py B) : Ok a ≫= f = f a.
Proof. reflexivity. Qed.

Lemma bind_raise {A B} ex (f : A → py B) : Raise ex ≫= f = Raise ex.
Proof. reflexivity. Qed.

Lemma enumerate_cons {A} (x : A) (l : list A) start :
  enumerate (x :: l) start = (start, x) :: enumerate l (S start).
Proof. reflexivity. Qed.


(* ===================================================================== *)
(** ** Properties of [validate_row] *)
(* ===================================================================== *)

Section ValidateFacts.

Context {F D : Type} `{Countable F} {RT : PyRuntime F D}.

Abbreviation row := (gmap string (value F)).

Lemma validate_row_accept_inv (r : row) n c issues :
  validate_row r n = Ok (true, Some c, issues) →
  get_truthy r "order_id" = true ∧ get_truthy r "product_id" = true ∧
  ∃ q fixed p issue d t,
    quantity_body r = Ok (q, fixed) ∧
    price_body r = Ok (p, issue) ∧
    parse_order_date r date_formats = Ok (Some d) ∧
    int_mul_float q p = Ok t ∧
    c = <["total" := VFloat (round2 t)]>
          (<["order_date" := VStr (strftime d "%Y-%m-%d")]>
             (<["unit_price" := VFloat p]>
                (<["quantity" := VInt q]> (email_fix r).1))) ∧
    issues = ((email_fix r).2 ++ (if fixed then ["invalid_quantity"] else [])
              ++ match issue with Some i => [i] | None => [] end)%list.
Proof.
  unfold validate_row.
  destruct (get_truthy r "order_id"); cbn [negb]; [|discriminate].
  destruct (get_truthy r "product_id"); cbn [negb]; [|discriminate].
  destruct (email_fix r) as [cl iss].
  destruct (quantity_body r) as [[q fixed]|ex]; [|destruct (caught ex); discriminate].
  destruct (price_body r) as [[p issue]|ex]; [|destruct (caught ex); discriminate].
  destruct (parse_order_date r date_formats) as [[d|]|ex]; [|discriminate..].
  destruct (int_mul_float q p) as [t|ex] eqn:Hmul; [|discriminate].
  intros Hv. do 2 (split; [reflexivity|]).
  exists q, fixed, p, issue, d, t.
  do 4 (split; [done|]).
  destruct fixed, issue; cbn in Hv |- *; injection Hv as <- <-;
    rewrite <- ?app_assoc, ?app_nil_r; split; reflexivity.
Qed.

Lemma quantity_body_inv (r : row) q fixed :
  quantity_body r = Ok (q, fixed) →
  ∃ v z, r !! "quantity" = Some v ∧ py_int v = Ok z ∧
         q = (if z <=? 0 then 1 else z) ∧ fixed = (z <=? 0).
Proof.
  unfold quantity_body, row_index.
  destruct (r !! "quantity") as [v|]; [|discriminate]. rewrite bind_ok.
  destruct (py_int v) as [z|] eqn:Hi; [|discriminate]. rewrite bind_ok.
  intros Hq. exists v, z. destruct (z <=? 0); injection Hq as <- <-; done.
Qed.

Lemma price_body_inv (r : row) p issue :
  price_body r = Ok (p, issue) →
  ∃ p0, (if get_truthy r "unit_price"
         then ∃ v, r !! "unit_price" = Some v ∧ py_float v = Ok p0
         else p0 = flt_lit 0) ∧
        (p, issue) = (if flt_lt p0 0 then (flt_lit 0, Some "negative_price")
                      else if flt_eq p0 0 then (p0, Some "zero_price")
                      else (p0, None)).
Proof.
  unfold price_body, row_index.
  destruct (get_truthy r "unit_price").
  - destruct (r !! "unit_price") as [v|]; [|discriminate]. rewrite bind_ok.
    destruct (py_float v) as [p0|] eqn:Hf; [|discriminate]. rewrite bind_ok.
    intros Hp. exists p0. split; [by exists v|].
    destruct (flt_lt p0 0); [|destruct (flt_eq p0 0)]; by injection Hp as <- <-.
  - rewrite bind_ok. intros Hp. exists (flt_lit 0). split; [done|].
    destruct (flt_lt (flt_lit 0) 0); [|destruct (flt_eq (flt_lit 0) 0)];
      by injection Hp as <- <-.
Qed.

Lemma flt_lt_zero : flt_lt (flt_lit 0) 0 = false.
Proof. unfold flt_lt. by rewrite flt_zero_cmp. Qed.

Lemma flt_eq_zero : flt_eq (flt_lit 0) 0 = true.
Proof. unfold flt_eq. by rewrite flt_zero_cmp. Qed.

Lemma flt_lt_not_eq (f : F) z : flt_lt f z = true → flt_eq f z = false.
Proof. unfold flt_lt, flt_eq. by destruct (flt_cmp_int f z) as [[]|]. Qed.







(** C10: for every row accepted by [validate_row], the cleaned row has
    every key of the input row, and every key other than [email],
    [quantity], [unit_price], [order_date] and [total] keeps the value
    the input has; so [customer_name] and [payment_method], which
    [load_batch] indexes, pass through unchanged. *)
Theorem validate_row_frame (r : row) n c issues :
  validate_row r n = Ok (true, Some c, issues) →
  dom r ⊆ dom c ∧
  (∀ k, k ∉ ["email"; "quantity"; "unit_price"; "order_date"; "total"] →
        c !! k = r !! k) ∧
  c !! "customer_name" = r !! "customer_name" ∧
  c !! "payment_method" = r !! "payment_method".
Proof.
  intros Hv.
  apply validate_row_accept_inv in Hv
    as (_ & _ & q & fixed & p & issue & d & t & _ & _ & _ & _ & -> & _).
  assert (Hframe : ∀ k,
    k ∉ ["email"; "quantity"; "unit_price"; "order_date"; "total"] →
    (<["total" := VFloat (round2 t)]>
       (<["order_date" := VStr (strftime d "%Y-%m-%d")]>
          (<["unit_price" := VFloat p]>
             (<["quantity" := VInt q]> (email_fix r).1)))) !! k = r !! k).
  { intros k Hk.
    rewrite !lookup_insert_ne by (intros <-; apply Hk; repeat constructor).
    unfold email_fix. destruct (negb (get_truthy r "email")); [|done].
    cbn [fst]. rewrite lookup_insert_ne; [done|].
    intros <-. apply Hk. repeat constructor. }
  split; [|split; [exact Hframe|split; apply Hframe; compute_done]].
  intros k Hk. rewrite !dom_insert, !elem_of_union. repeat right.
  unfold email_fix. destruct (negb (get_truthy r "email")); cbn [fst]; [|done].
  rewrite dom_insert, elem_of_union. by right.
Qed.

Lemma validate_step_reject (st : validation_state (F:=F)) (r : row) n issues :
  validate_row r n = Ok (false, None, issues) →
  validate_step st (n, r) =
    Ok {| valid_rows := valid_rows st;
          skipped_rows := S (skipped_rows st);
          total_issues := total_issues st |}.
Proof. intros Hv. unfold validate_step. by rewrite Hv. Qed.

Lemma validate_row_quantity_raise (r : row) n ex :
  get_truthy r "order_id" = true → get_truthy r "product_id" = true →
  quantity_body r = Raise ex → caught ex = true →
  validate_row r n = Ok (false, None, ["invalid_quantity_type"]).
Proof.
  intros Hid Hpid Hq Hc. unfold validate_row.
  rewrite Hid, Hpid, Hq, Hc. cbn [negb]. by destruct (email_fix r).
Qed.

Lemma validate_row_price_raise (r : row) n q fixed ex :
  get_truthy r "order_id" = true → get_truthy r "product_id" = true →
  quantity_body r = Ok (q, fixed) →
  price_body r = Raise ex → caught ex = true →
  validate_row r n = Ok (false, None, ["invalid_price_type"]).
Proof.
  intros Hid Hpid Hq Hp Hc. unfold validate_row.
  rewrite Hid, Hpid, Hq, Hp, Hc. cbn [negb]. by destruct (email_fix r).
Qed.

Lemma accepted_issues_quantity (r : row) n c issues q :
  validate_row r n = Ok (true, Some c, issues) →
  quantity_body r = Ok (q, true) → "invalid_quantity" ∈ issues.
Proof.
  intros Hv Hq.
  apply validate_row_accept_inv in Hv
    as (_ & _ & q' & fixed & p & issue & d & t & Hq' & _ & _ & _ & _ & ->).
  rewrite Hq in Hq'. injection Hq' as <- <-.
  rewrite !elem_of_app. right. left. by left.
Qed.

(** A row without the key [quantity] is not rejected: [row["quantity"]]
    raises [KeyError], which the handler of the block does not name. *)
Lemma validate_row_missing_quantity (r : row) n :
  get_truthy r "order_id" = true → get_truthy r "product_id" = true →
  r !! "quantity" = None →
  validate_row r n = Raise (KeyError "quantity").
Proof.
  intros Hid Hpid Hq. unfold validate_row, quantity_body, row_index.
  rewrite Hid, Hpid, Hq. cbn [negb]. by destruct (email_fix r).
Qed.

(** C8: the quantity of an accepted row is [int(row["quantity"])], an
    integer, with a value at or below zero replaced by 1 and recorded as
    [invalid_quantity]; a quantity on which [int()] raises [ValueError] or
    [TypeError] rejects the row with [invalid_quantity_type], and
    [run_transformation] drops it. *)
Theorem validate_row_quantity (r : row) n :
  (∀ c issues, validate_row r n = Ok (true, Some c, issues) →
     ∃ v z, r !! "quantity" = Some v ∧ py_int v = Ok z ∧
            c !! "quantity" = Some (VInt (if z <=? 0 then 1 else z)) ∧
            (z ≤ 0 → c !! "quantity" = Some (VInt 1) ∧
                     "invalid_quantity" ∈ issues)) ∧
  (∀ v, get_truthy r "order_id" = true → get_truthy r "product_id" = true →
        r !! "quantity" = Some v →
        py_int v = Raise ValueError ∨ py_int v = Raise TypeError →
        validate_row r n = Ok (false, None, ["invalid_quantity_type"]) ∧
        ∀ st, validate_step st (n, r) =
                Ok {| valid_rows := valid_rows st;
                      skipped_rows := S (skipped_rows st);
                      total_issues := total_issues st |}).
Proof.
  split.
  - intros c issues Hv.
    destruct (validate_row_accept_inv _ _ _ _ Hv)
      as (_ & _ & q & fixed & p & issue & d & t & Hq & _ & _ & _ & Hc & _).
    destruct (quantity_body_inv _ _ _ Hq) as (v & z & Hr & Hi & Hqz & Hfz).
    exists v, z. split; [done|]. split; [done|].
    assert (Hcq : c !! "quantity" = Some (VInt q)).
    { rewrite Hc. rewrite !lookup_insert_ne by done. by rewrite lookup_insert_eq. }
    split; [by rewrite Hcq, Hqz|].
    intros Hz. apply Z.leb_le in Hz. rewrite Hz in Hqz, Hfz. subst q fixed.
    split; [done|]. by eapply accepted_issues_quantity.
  - intros v Hid Hpid Hr Hi.
    assert (Hq : ∃ ex, quantity_body r = Raise ex ∧ caught ex = true).
    { unfold quantity_body, row_index. rewrite Hr, bind_ok.
      destruct Hi as [-> | ->]; eauto. }
    destruct Hq as (ex & Hq & Hc).
    assert (Hv := validate_row_quantity_raise r n ex Hid Hpid Hq Hc).
    split; [done|]. intros st. by eapply validate_step_reject.
Qed.

(** C7: an absent or empty [unit_price] is read as 0.0; a string that
    [float()] rejects makes the row fatal with [invalid_price_type] and the
    row is dropped; a negative price becomes 0.0 with [negative_price]; a
    price equal to zero is kept with [zero_price].  In the three cases
    where the price block returns, the row is not rejected for its price,
    and an accepted row carries that price and that issue. *)
Theorem validate_row_unit_price (r : row) n :
  (get_truthy r "unit_price" = false →
     price_body r = Ok (flt_lit 0, Some "zero_price")) ∧
  (∀ s q fixed,
     get_truthy r "order_id" = true → get_truthy r "product_id" = true →
     quantity_body r = Ok (q, fixed) →
     r !! "unit_price" = Some (VStr s) → s ≠ "" → float_of_string s = None →
     validate_row r n = Ok (false, None, ["invalid_price_type"]) ∧
     ∀ st, validate_step st (n, r) =
             Ok {| valid_rows := valid_rows st;
                   skipped_rows := S (skipped_rows st);
                   total_issues := total_issues st |}) ∧
  (∀ v p, r !! "unit_price" = Some v → truthy v = true → py_float v = Ok p →
     flt_lt p 0 = true →
     price_body r = Ok (flt_lit 0, Some "negative_price")) ∧
  (∀ v p, r !! "unit_price" = Some v → truthy v = true → py_float v = Ok p →
     flt_eq p 0 = true →
     price_body r = Ok (p, Some "zero_price")) ∧
  (∀ p issue, price_body r = Ok (p, issue) →
     validate_row r n ≠ Ok (false, None, ["invalid_price_type"]) ∧
     ∀ c issues, validate_row r n = Ok (true, Some c, issues) →
       c !! "unit_price" = Some (VFloat p) ∧
       ∀ i, issue = Some i → i ∈ issues).
Proof.
  split; [|split; [|split; [|split]]].
  - intros Hg. unfold price_body. rewrite Hg, bind_ok.
    by rewrite flt_lt_zero, flt_eq_zero.
  - intros s q fixed Hid Hpid Hq Hr Hs Hf.
    assert (Hp : price_body r = Raise ValueError).
    { unfold price_body, get_truthy, row_index. rewrite Hr. cbn [truthy].
      apply String.eqb_neq in Hs as ->. cbn [negb].
      rewrite !bind_ok. cbn [py_float]. by rewrite Hf. }
    assert (Hv := validate_row_price_raise r n q fixed _ Hid Hpid Hq Hp eq_refl).
    split; [done|]. intros st. by eapply validate_step_reject.
  - intros v p Hr Ht Hf Hlt. unfold price_body, get_truthy, row_index.
    by rewrite Hr, Ht, bind_ok, Hf, bind_ok, Hlt.
  - intros v p Hr Ht Hf Heq. unfold price_body, get_truthy, row_index.
    rewrite Hr, Ht, bind_ok, Hf, bind_ok, Heq.
    destruct (flt_lt p 0) eqn:Hlt; [|done].
    apply flt_lt_not_eq in Hlt. congruence.
  - intros p issue Hp. split.
    + unfold validate_row. rewrite Hp.
      destruct (negb (get_truthy r "order_id")); [done|].
      destruct (negb (get_truthy r "product_id")); [done|].
      destruct (email_fix r) as [cl iss].
      destruct (quantity_body r) as [[q fixed]|ex]; [|by destruct (caught ex)].
      destruct (parse_order_date r date_formats) as [[d|]|ex]; [|done..].
      rewrite bind_ok. by destruct (int_mul_float q p).
    + intros c issues Hv.
      apply validate_row_accept_inv in Hv
        as (_ & _ & q & fixed & p' & issue' & d & t & _ & Hp' & _ & _ & -> & ->).
      rewrite Hp in Hp'. injection Hp' as <- <-. split.
      * rewrite !lookup_insert_ne by done. by rewrite lookup_insert_eq.
      * intros i ->. rewrite !elem_of_app. right. right. by left.
Qed.

End ValidateFacts.

(** Runs of the theorems above on the sample rows. *)
Import Cents.


Lemma validate_row_frame_witness :
  validate_row Samples.order_b 1
    = Ok (true, Some (Samples.cleaned Samples.order_b), ["invalid_quantity"])
  ∧ Samples.cleaned Samples.order_b !! "payment_method"
    = Samples.order_b !! "payment_method".
Proof.
  split; [vm_compute; reflexivity|].
  apply (validate_row_frame Samples.order_b 1 _ ["invalid_quantity"]).
  vm_compute; reflexivity.
Defined.

Lemma validate_row_quantity_witness :
  (validate_row Samples.order_b 1
     = Ok (true, Some (Samples.cleaned Samples.order_b), ["invalid_quantity"])
   ∧ ∃ v z, Samples.order_b !! "quantity" = Some v ∧ py_int v = Ok z ∧
       Samples.cleaned Samples.order_b !! "quantity"
         = Some (VInt (if z <=? 0 then 1 else z)) ∧
       (z ≤ 0 → Samples.cleaned Samples.order_b !! "quantity" = Some (VInt 1) ∧
                "invalid_quantity" ∈ ["invalid_quantity"]))
  ∧ validate_row Samples.order_bad_quantity 1
      = Ok (false, None, ["invalid_quantity_type"]).
Proof.
  split.
  - split; [vm_compute; reflexivity|].
    apply (proj1 (validate_row_quantity Samples.order_b 1)).
    vm_compute; reflexivity.
  - apply (proj2 (validate_row_quantity Samples.order_bad_quantity 1) (VStr "two"));
      [vm_compute; reflexivity ..|].
    left. vm_compute; reflexivity.
Defined.

Lemma validate_row_unit_price_witness :
  price_body Samples.order_no_price = Ok (flt_lit 0, Some "zero_price")
  ∧ validate_row Samples.order_bad_price 1 = Ok (false, None, ["invalid_price_type"])
  ∧ price_body Samples.order_negative_price = Ok (flt_lit 0, Some "negative_price")
  ∧ price_body Samples.order_zero_price = Ok (0, Some "zero_price")
  ∧ Samples.cleaned Samples.order_no_price !! "unit_price" = Some (VFloat 0).
Proof.
  pose proof (validate_row_unit_price Samples.order_no_price 1) as (H1 & _ & _ & _ & H5).
  pose proof (validate_row_unit_price Samples.order_bad_price 1) as (_ & H2 & _).
  pose proof (validate_row_unit_price Samples.order_negative_price 1) as (_ & _ & H3 & _).
  pose proof (validate_row_unit_price Samples.order_zero_price 1) as (_ & _ & _ & H4 & _).
  split; [apply H1; vm_compute; reflexivity|].
  split; [apply (H2 "cheap" 1 false); [vm_compute; reflexivity .. | discriminate | vm_compute; reflexivity]|].
  split; [apply (H3 (VStr "-5.00") (-500)); vm_compute; reflexivity|].
  split; [apply (H4 (VStr "0.00") 0); vm_compute; reflexivity|].
  apply (proj2 (H5 0 (Some "zero_price") ltac:(vm_compute; reflexivity))
            (Samples.cleaned Samples.order_no_price) ["zero_price"]).
  vm_compute; reflexivity.
Defined.

(* ===================================================================== *)
(** ** Properties of [check_duplicates] *)
(* ===================================================================== *)

Section DedupFacts.

Context {F : Type} `{Countable F}.

Abbreviation row := (gmap string (value F)).

Lemma hash_key_ok (k k' : value F) : hash_key k = Ok k' → k' = k.
Proof. destruct k; cbn; congruence. Qed.


Lemma first_occurrences_sublist earlier (rows : list row) :
  first_occurrences earlier rows `sublist_of` rows.
Proof.
  revert earlier. induction rows as [|r rest IH]; intros earlier; [done|].
  cbn [first_occurrences]. case_bool_decide.
  - by apply sublist_cons.
  - by apply sublist_skip.
Qed.





Lemma dedup_step_keyed (st : dedup_state) (r : row) k :
  r !! "order_id" = Some k → hash_key k = Ok k →
  dedup_step st r =
    match seen st !! k with
    | Some _ =>
        Ok {| seen := seen st; unique_rows := unique_rows st;
              duplicate_count := S (duplicate_count st) |}
    | None =>
        Ok {| seen := <[k := length (unique_rows st)]> (seen st);
              unique_rows := (unique_rows st ++ [r])%list;
              duplicate_count := duplicate_count st |}
    end.
Proof.
  intros Hr Hh. unfold dedup_step, row_index. by rewrite Hr, bind_ok, Hh, bind_ok.
Qed.

(** The loop, from any state whose [seen] holds exactly the ids in
    [earlier]. *)
Lemma dedup_loop_spec (rows : list row) (st : dedup_state) earlier :
  Forall keyed rows →
  (∀ k, is_Some (seen st !! k) ↔ Some k ∈ earlier) →
  ∃ st', for_loop dedup_step st rows = Ok st' ∧
    unique_rows st' = (unique_rows st ++ first_occurrences earlier rows)%list ∧
    (duplicate_count st' + length (first_occurrences earlier rows)
       = duplicate_count st + length rows)%nat.
Proof.
  revert st earlier. induction rows as [|r rest IH]; intros st earlier Hk Hseen.
  - exists st. cbn. by rewrite app_nil_r.
  - apply Forall_cons in Hk as [(k & Hr & Hh) Hk].
    cbn [for_loop first_occurrences]. rewrite (dedup_step_keyed st r k Hr Hh), Hr.
    destruct (seen st !! k) as [pos|] eqn:Hs.
    + rewrite bool_decide_eq_true_2 by (apply Hseen; eauto).
      rewrite bind_ok.
      edestruct (IH {| seen := seen st; unique_rows := unique_rows st;
                       duplicate_count := S (duplicate_count st) |}
                    (Some k :: earlier) Hk) as (st' & Hrun & Hu & Hc).
      { intros k'. cbn. rewrite elem_of_cons. rewrite Hseen. split; [tauto|].
        intros [[= ->]|?]; [|done]. apply Hseen. eauto. }
      exists st'. split; [done|]. split; [done|].
      cbn [duplicate_count length] in Hc |- *. lia.
    + rewrite bool_decide_eq_false_2.
      2:{ intros Hin%Hseen. rewrite Hs in Hin. by destruct Hin. }
      rewrite bind_ok.
      edestruct (IH {| seen := <[k := length (unique_rows st)]> (seen st);
                       unique_rows := (unique_rows st ++ [r])%list;
                       duplicate_count := duplicate_count st |}
                    (Some k :: earlier) Hk) as (st' & Hrun & Hu & Hc).
      { intros k'. cbn. rewrite elem_of_cons.
        destruct (decide (k = k')) as [->|Hne].
        - rewrite lookup_insert_eq. split; eauto.
        - rewrite lookup_insert_ne by done. rewrite Hseen. split; [tauto|].
          intros [[= ->]|?]; done. }
      exists st'. split; [done|]. split.
      * rewrite Hu. cbn. by rewrite <- app_assoc.
      * cbn [duplicate_count length] in Hc |- *. lia.
Qed.


Lemma dedup_step_ok_keyed (st st' : dedup_state) (r : row) :
  dedup_step st r = Ok st' → keyed r.
Proof.
  unfold dedup_step, row_index.
  destruct (r !! "order_id") as [k|] eqn:Hr; [|done]. rewrite bind_ok.
  destruct (hash_key k) as [k'|] eqn:Hh; [|done].
  intros _. exists k. split; [done|]. by rewrite Hh, (hash_key_ok _ _ Hh).
Qed.

Lemma dedup_loop_ok_keyed (rows : list row) (st st' : dedup_state) :
  for_loop dedup_step st rows = Ok st' → Forall keyed rows.
Proof.
  revert st. induction rows as [|r rest IH]; intros st; [by constructor|].
  cbn [for_loop]. destruct (dedup_step st r) as [st1|] eqn:Hstep; [|done].
  rewrite bind_ok. intros Hrun. constructor.
  - by eapply dedup_step_ok_keyed.
  - by eapply IH.
Qed.

End DedupFacts.

(* ===================================================================== *)
(** ** Properties of [enrich_with_products] *)
(* ===================================================================== *)

Section EnrichFacts.

Context {F D : Type} `{Countable F} {RT : PyRuntime F D}.

Abbreviation row := (gmap string (value F)).






Lemma enrich_step_inv (lk : gmap (value F) row) (r : row) acc miss acc' miss' :
  enrich_step lk (acc, miss) r = Ok (acc', miss') →
  ∃ pid, r !! "product_id" = Some pid ∧
    match lk !! pid with
    | Some product =>
        ∃ name category stock,
          product !! "name" = Some name ∧
          product !! "category" = Some category ∧
          product !! "stock" = Some stock ∧
          acc' = (acc ++ [known_product name category stock r])%list ∧
          miss' = miss
    | None =>
        acc' = (acc ++ [unknown_product r])%list ∧ miss' = miss ∪ {[pid]}
    end.
Proof.
  unfold enrich_step, row_index.
  destruct (r !! "product_id") as [pid|] eqn:Hr; [|done]. rewrite bind_ok.
  destruct (hash_key pid) as [k0|] eqn:Hh; [|done].
  apply hash_key_ok in Hh as ->. rewrite bind_ok.
  destruct (lk !! pid) as [product|] eqn:Hlk.
  - destruct (product !! "name") as [name|] eqn:Hn; [|done]. rewrite bind_ok.
    destruct (product !! "category") as [category|] eqn:Hc; [|done]. rewrite bind_ok.
    destruct (product !! "stock") as [stock|] eqn:Hs; [|done]. rewrite bind_ok.
    destruct (_ !! "order_id"); [|done]. rewrite bind_ok.
    destruct (py_lt stock LOW_STOCK_THRESHOLD); [|done]. rewrite !bind_ok.
    intros [= <- <-]. exists pid. split; [done|]. rewrite Hlk.
    by exists name, category, stock.
  - intros [= <- <-]. exists pid. split; [done|]. by rewrite Hlk.
Qed.

Lemma enrich_loop_spec (lk : gmap (value F) row) (rows : list row)
    acc miss enriched missing :
  for_loop (enrich_step lk) (acc, miss) rows = Ok (enriched, missing) →
  ∃ out, enriched = (acc ++ out)%list ∧ length out = length rows ∧
    (∀ i r, rows !! i = Some r →
       ∃ pid, r !! "product_id" = Some pid ∧
         match lk !! pid with
         | Some product =>
             ∃ name category stock,
               product !! "name" = Some name ∧
               product !! "category" = Some category ∧
               product !! "stock" = Some stock ∧
               out !! i = Some (known_product name category stock r)
         | None => out !! i = Some (unknown_product r) ∧ pid ∈ missing
         end) ∧
    miss ⊆ missing ∧
    (∀ k, k ∈ missing → k ∈ miss ∨
          ∃ r, r ∈ rows ∧ r !! "product_id" = Some k ∧ lk !! k = None).
Proof.
  revert acc miss. induction rows as [|r rest IH]; intros acc miss; cbn [for_loop].
  - intros [= <- <-]. exists []. rewrite app_nil_r. repeat split; try done.
    intros k Hk. by left.
  - destruct (enrich_step lk (acc, miss) r) as [[acc' miss']|] eqn:Hstep; [|done].
    rewrite bind_ok. intros Hrun.
    destruct (IH _ _ Hrun) as (out & -> & Hlen & Hrows & Hsub & Hmiss).
    apply enrich_step_inv in Hstep as (pid & Hr & Hstep).
    destruct (lk !! pid) as [product|] eqn:Hlk.
    + destruct Hstep as (name & category & stock & Hn & Hc & Hs & -> & ->).
      exists (known_product name category stock r :: out).
      split; [by rewrite <- app_assoc|]. split; [cbn; by rewrite Hlen|].
      split; [|split; [done|]].
      * intros [|i] r' Hi; cbn in Hi.
        -- injection Hi as <-. exists pid. split; [done|]. rewrite Hlk.
           by exists name, category, stock.
        -- by apply Hrows in Hi.
      * intros k Hk. destruct (Hmiss k Hk) as [?|(r' & Hin & Hr' & Hk')]; [by left|].
        right. exists r'. split; [by right|done].
    + destruct Hstep as [-> ->].
      exists (unknown_product r :: out).
      split; [by rewrite <- app_assoc|]. split; [cbn; by rewrite Hlen|].
      split; [|split].
      * intros [|i] r' Hi; cbn in Hi.
        -- injection Hi as <-. exists pid. split; [done|]. rewrite Hlk.
           split; [done|]. apply Hsub. apply elem_of_union. right.
           by apply elem_of_singleton.
        -- by apply Hrows in Hi.
      * intros k Hk. apply Hsub. apply elem_of_union. by left.
      * intros k Hk. destruct (Hmiss k Hk) as [Hin|(r' & Hin & Hr' & Hk')].
        -- apply elem_of_union in Hin as [Hin|Hin]; [by left|].
           apply elem_of_singleton in Hin as ->. right. exists r.
           split; [by left|done].
        -- right. exists r'. split; [by right|done].
Qed.



End EnrichFacts.


(* ===================================================================== *)
(** ** Deduplication within [run_transformation] *)
(* ===================================================================== *)

Section DedupPipeline.

Context {F D : Type} `{Countable F} {RT : PyRuntime F D}.

Abbreviation row := (gmap string (value F)).

Lemma flag_step_inv (acc acc' : list row) n n' i (r : row) :
  flag_step (acc, n) (i, r) = Ok (acc', n') →
  ∃ alerts, acc' = (acc ++ [<["anomaly_flags" := VList alerts]> r])%list.
Proof.
  unfold flag_step. destruct (detect_anomalies r i) as [alerts|]; [|done].
  rewrite bind_ok. intros [= <- _]. by exists alerts.
Qed.





End DedupPipeline.


(* ===================================================================== *)
(** ** Properties of [run_extraction] *)
(* ===================================================================== *)

Section ExtractFacts.

Context {F D : Type} `{Countable F} {RT : PyRuntime F D}.



End ExtractFacts.


(* ===================================================================== *)
(** ** Properties of [run_pipeline] *)
(* ===================================================================== *)

Section PipelineFacts.

Context {F D : Type} `{Countable F} {RT : PyRuntime F D}.

(** C9: [run_pipeline] calls [run_extraction], [run_transformation] and
    [run_loading] in that order, each at most once.  The first stage
    that raises gives [phase_failed] its name and makes [errors] 1, and
    no later stage is called; the counts of the stages that returned
    before it are in the stats, the others are 0.  When no stage raises,
    [phase_failed] is [None] and [errors] is 0. *)
Theorem run_pipeline_stages (w : world F) :
  let '(s, calls) := run_pipeline w in
  (∃ n, (1 ≤ n ≤ 3)%nat ∧
        calls = take n ["run_extraction"; "run_transformation"; "run_loading"]) ∧
  st_errors s = match st_phase_failed s with Some _ => 1 | None => 0 end%nat ∧
  match run_extraction (w_files w) (w_api_picks w)
          "data/sales_data.csv" "data/products.json" with
  | Raise _ =>
      st_phase_failed s = Some "extraction" ∧ calls = ["run_extraction"] ∧
      st_extracted s = 0%nat ∧ st_transformed s = 0%nat ∧
      st_loaded s = 0%nat ∧ st_skipped s = 0%nat
  | Ok extracted_data =>
      st_extracted s = length (sales_data extracted_data) ∧
      match run_transformation extracted_data with
      | Raise _ =>
          st_phase_failed s = Some "transformation" ∧
          calls = ["run_extraction"; "run_transformation"] ∧
          st_transformed s = 0%nat ∧ st_loaded s = 0%nat ∧ st_skipped s = 0%nat
      | Ok cleaned_rows =>
          st_transformed s = length cleaned_rows ∧
          calls = ["run_extraction"; "run_transformation"; "run_loading"] ∧
          match run_loading cleaned_rows (w_db w) (w_conn_draw w) with
          | Raise _ =>
              st_phase_failed s = Some "loading" ∧
              st_loaded s = 0%nat ∧ st_skipped s = 0%nat
          | Ok (inserted, skipped) =>
              st_phase_failed s = None ∧
              st_loaded s = inserted ∧ st_skipped s = skipped
          end
      end
  end.
Proof.
  unfold run_pipeline.
  destruct (run_extraction _ _ _ _) as [extracted_data|].
  2:{ cbn. split; [exists 1%nat; split; [lia|done]|]. by repeat split. }
  destruct (run_transformation extracted_data) as [cleaned_rows|].
  2:{ cbn. split; [exists 2%nat; split; [lia|done]|]. by repeat split. }
  destruct (run_loading cleaned_rows _ _) as [[inserted skipped]|].
  all: cbn; (split; [exists 3%nat; split; [lia|done]|]); by repeat split.
Qed.

End PipelineFacts.

(** C2, on the code: a file whose header has no [quantity] column gives
    rows without that key.  [validate_row] raises [KeyError] on the first
    of them instead of rejecting it with [invalid_quantity_type], the
    exception leaves [run_transformation], and the run ends with
    [phase_failed] "transformation", nothing transformed or loaded. *)
Theorem missing_quantity_aborts_run :
  validate_row Samples.order_no_quantity 1 = Raise (KeyError "quantity") ∧
  run_transformation
    {| sales_data := [Samples.order_no_quantity];
       product_catalog := Samples.catalog; api_data := [] |}
    = Raise (KeyError "quantity") ∧
  run_pipeline (Samples.run_world [Samples.order_no_quantity] (1 # 2))
    = ({| st_extracted := 1; st_transformed := 0; st_loaded := 0;
          st_skipped := 0; st_errors := 1;
          st_phase_failed := Some "transformation" |},
       ["run_extraction"; "run_transformation"]).
Proof. repeat split; vm_compute; reflexivity. Qed.

(* ===================================================================== *)
(** ** Properties of [run_loading] *)
(* ===================================================================== *)

Section LoaderFacts.

Context {F D : Type} `{Countable F} {RT : PyRuntime F D}.

Abbreviation row := (gmap string (value F)).

(** *** Batches *)








(** *** The store *)

Lemma insert_or_ignore_length (t : list (dbrow F)) p :
  (length t ≤ length (insert_or_ignore t p) ≤ S (length t))%nat.
Proof.
  unfold insert_or_ignore. destruct (existsb _ t); [lia|].
  rewrite length_app. cbn. lia.
Qed.







(** *** The loop over the batches *)





End LoaderFacts.


(* ===================================================================== *)
(** ** More on [validate_row] *)
(* ===================================================================== *)

Section ValidateMore.

Context {F D : Type} `{Countable F} {RT : PyRuntime F D}.

Abbreviation row := (gmap string (value F)).

(** Every run of [validate_row] is one of the cases of [validate_case]. *)
Lemma validate_row_case (r : row) n : validate_case r (validate_row r n).
Proof.
  unfold validate_row.
  destruct (get_truthy r "order_id") eqn:Hid; cbn [negb];
    [|by apply case_no_order_id].
  destruct (get_truthy r "product_id") eqn:Hpid; cbn [negb];
    [|by apply case_no_product_id].
  destruct (quantity_body r) as [[q fixed]|ex] eqn:Hq.
  2:{ destruct (email_fix r). destruct (caught ex) eqn:Hc.
      - by eapply case_quantity_rejected.
      - by eapply case_quantity_raises. }
  destruct (price_body r) as [[p issue]|ex] eqn:Hp.
  2:{ destruct (email_fix r). destruct (caught ex) eqn:Hc.
      - by eapply case_price_rejected.
      - by eapply case_price_raises. }
  destruct (parse_order_date r date_formats) as [[d|]|ex] eqn:Hd.
  3:{ destruct (email_fix r). rewrite bind_raise. by eapply case_date_raises. }
  2:{ destruct (email_fix r). rewrite bind_ok. by eapply case_date_rejected. }
  destruct (int_mul_float q p) as [t|ex] eqn:Hm.
  2:{ destruct (email_fix r). rewrite bind_ok, bind_raise.
      by eapply case_total_raises. }
  pose proof (case_accepted r q fixed p issue d t Hid Hpid Hq Hp Hd Hm) as Hcase.
  unfold cleaned_row, cleaned_issues in Hcase.
  destruct (email_fix r) as [cl iss]. rewrite !bind_ok. cbn [fst snd] in Hcase.
  destruct fixed, issue; cbn in Hcase |- *;
    rewrite <- ?app_assoc, ?app_nil_r in *; exact Hcase.
Qed.

(** X1: the two required-field checks come first and decide alone: a row
    is dropped with [missing_order_id] exactly when its [order_id] is
    absent or falsy, and with [missing_product_id] exactly when its
    [order_id] is truthy and its [product_id] absent or falsy -- whatever
    the other fields hold, and without raising. *)
Theorem validate_row_required_fields (r : row) n :
  (validate_row r n = Ok (false, None, ["missing_order_id"])
     ↔ get_truthy r "order_id" = false) ∧
  (validate_row r n = Ok (false, None, ["missing_product_id"])
     ↔ get_truthy r "order_id" = true ∧ get_truthy r "product_id" = false).
Proof.
  pose proof (validate_row_case r n) as Hcase.
  split; split.
  - intros Hv. rewrite Hv in Hcase. by inversion Hcase.
  - intros Hid. unfold validate_row. by rewrite Hid.
  - intros Hv. rewrite Hv in Hcase. by inversion Hcase.
  - intros [Hid Hpid]. unfold validate_row. by rewrite Hid, Hpid.
Qed.

Lemma validate_row_accepted (r : row) n c issues :
  validate_row r n = Ok (true, Some c, issues) →
  ∃ q fixed p issue d t,
    get_truthy r "order_id" = true ∧ get_truthy r "product_id" = true ∧
    quantity_body r = Ok (q, fixed) ∧ price_body r = Ok (p, issue) ∧
    parse_order_date r date_formats = Ok (Some d) ∧
    int_mul_float q p = Ok t ∧
    c = cleaned_row r q p d t ∧ issues = cleaned_issues r fixed issue.
Proof.
  intros Hv. pose proof (validate_row_case r n) as Hcase. rewrite Hv in Hcase.
  inversion Hcase; subst. by exists q, fixed, p, issue, d, t.
Qed.

Lemma cleaned_row_other (r : row) q p d t k :
  k ∉ ["email"; "quantity"; "unit_price"; "order_date"; "total"] →
  cleaned_row r q p d t !! k = r !! k.
Proof.
  intros Hk. unfold cleaned_row.
  rewrite !lookup_insert_ne by (intros <-; apply Hk; repeat constructor).
  unfold email_fix. destruct (negb (get_truthy r "email")); [|done].
  cbn [fst]. rewrite lookup_insert_ne; [done|].
  intros <-. apply Hk. repeat constructor.
Qed.

Lemma cleaned_row_email (r : row) q p d t :
  cleaned_row r q p d t !! "email" = (email_fix r).1 !! "email".
Proof. unfold cleaned_row. by rewrite !lookup_insert_ne. Qed.

Lemma cleaned_row_quantity (r : row) q p d t :
  cleaned_row r q p d t !! "quantity" = Some (VInt q).
Proof.
  unfold cleaned_row. rewrite !lookup_insert_ne by done. apply lookup_insert_eq.
Qed.

Lemma cleaned_row_unit_price (r : row) q p d t :
  cleaned_row r q p d t !! "unit_price" = Some (VFloat p).
Proof.
  unfold cleaned_row. rewrite !lookup_insert_ne by done. apply lookup_insert_eq.
Qed.

Lemma cleaned_row_order_date (r : row) q p d t :
  cleaned_row r q p d t !! "order_date" = Some (VStr (strftime d "%Y-%m-%d")).
Proof.
  unfold cleaned_row. rewrite !lookup_insert_ne by done. apply lookup_insert_eq.
Qed.

Lemma cleaned_row_total (r : row) q p d t :
  cleaned_row r q p d t !! "total" = Some (VFloat (round2 t)).
Proof. unfold cleaned_row. apply lookup_insert_eq. Qed.

Lemma price_body_issue (r : row) p issue :
  price_body r = Ok (p, issue) →
  flt_lt p 0 = false ∧
  (issue = None ∨ issue = Some "negative_price" ∨ issue = Some "zero_price").
Proof.
  intros (p0 & _ & Hpi)%price_body_inv.
  destruct (flt_lt p0 0) eqn:Hlt; [|destruct (flt_eq p0 0)];
    injection Hpi as -> ->; eauto using flt_lt_zero.
Qed.

Lemma value_is_string (v : value F) : (∃ s, v = VStr s) ∨ (∀ s, v ≠ VStr s).
Proof. destruct v; eauto; by right. Qed.

Lemma parse_order_date_raises (r : row) fmts ex :
  parse_order_date r fmts = Raise ex →
  ex = KeyError "order_date" ∧ r !! "order_date" = None.
Proof.
  induction fmts as [|fmt rest IH]; [done|]. cbn [parse_order_date].
  unfold row_index. destruct (r !! "order_date") as [v|]; [|by intros [= <-]].
  rewrite bind_ok. unfold py_strptime.
  destruct v as [|s| | |]; cbn [caught]; try exact IH.
  destruct (strptime s fmt); [done|exact IH].
Qed.

Lemma parse_order_date_string (r : row) fmts s :
  r !! "order_date" = Some (VStr s) →
  parse_order_date r fmts = Ok (head (omap (strptime s) fmts)).
Proof.
  intros Hr. induction fmts as [|fmt rest IH]; [done|].
  cbn [parse_order_date omap list_omap]. unfold row_index.
  rewrite Hr, bind_ok. cbn [py_strptime].
  destruct (strptime s fmt) as [d|]; [done|exact IH].
Qed.

Lemma parse_order_date_other (r : row) fmts v :
  r !! "order_date" = Some v → (∀ s, v ≠ VStr s) →
  parse_order_date r fmts = Ok None.
Proof.
  intros Hr Hv. induction fmts as [|fmt rest IH]; [done|].
  cbn [parse_order_date]. unfold row_index. rewrite Hr, bind_ok.
  destruct v as [|s| | |]; cbn [py_strptime caught]; try exact IH.
  by destruct (Hv s).
Qed.

(** X2: an absent or falsy [email] does not drop the row: the row that is
    kept carries "unknown@placeholder.com" and the issue
    [missing_email]; a truthy [email] is kept as it is and the issue is
    not recorded. *)
Theorem validate_row_email (r : row) n c issues :
  validate_row r n = Ok (true, Some c, issues) →
  (get_truthy r "email" = false →
     c !! "email" = Some (VStr "unknown@placeholder.com") ∧
     "missing_email" ∈ issues) ∧
  (get_truthy r "email" = true →
     c !! "email" = r !! "email" ∧ "missing_email" ∉ issues).
Proof.
  intros (q & fixed & p & issue & d & t & _ & _ & _ & Hp & _ & _ & -> & ->)
    %validate_row_accepted.
  rewrite cleaned_row_email. unfold cleaned_issues, email_fix.
  apply price_body_issue in Hp as [_ Hissue].
  split; intros ->; cbn [negb fst snd].
  - split; [apply lookup_insert_eq|]. apply elem_of_app. left. by left.
  - split; [done|]. rewrite app_nil_l.
    destruct Hissue as [-> | [-> | ->]]; destruct fixed; compute_done.
Qed.

(** X3: the date formats are tried in the order of [date_formats] and the
    first that parses wins: the row that is kept carries that date in
    the form [%Y-%m-%d].  A date that is not a string, or that no format
    parses, drops a row that came through the earlier blocks, with
    [unparseable_date]. *)
Theorem validate_row_order_date (r : row) n :
  (∀ s, r !! "order_date" = Some (VStr s) →
        parse_order_date r date_formats = Ok (first_format s)) ∧
  (∀ c issues, validate_row r n = Ok (true, Some c, issues) →
     ∃ s d, r !! "order_date" = Some (VStr s) ∧ first_format s = Some d ∧
            c !! "order_date" = Some (VStr (strftime d "%Y-%m-%d"))) ∧
  (∀ v q fixed p issue,
     get_truthy r "order_id" = true → get_truthy r "product_id" = true →
     quantity_body r = Ok (q, fixed) → price_body r = Ok (p, issue) →
     r !! "order_date" = Some v →
     (∀ s, v = VStr s → first_format s = None) →
     validate_row r n = Ok (false, None, ["unparseable_date"])).
Proof.
  split; [intros s Hr; by apply parse_order_date_string|]. split.
  - intros c issues
      (q & fixed & p & issue & d & t & _ & _ & _ & _ & Hd & _ & -> & _)
      %validate_row_accepted.
    destruct (r !! "order_date") as [v|] eqn:Hr.
    2:{ unfold date_formats in Hd. cbn [parse_order_date] in Hd.
        unfold row_index in Hd. by rewrite Hr in Hd. }
    destruct (value_is_string v) as [[s ->]|Hns].
    + rewrite (parse_order_date_string r _ s Hr) in Hd. injection Hd as Hd.
      exists s, d. split; [done|]. split; [done|]. apply cleaned_row_order_date.
    + by rewrite (parse_order_date_other r _ v Hr Hns) in Hd.
  - intros v q fixed p issue Hid Hpid Hq Hp Hr Hv.
    assert (Hd : parse_order_date r date_formats = Ok None).
    { destruct (value_is_string v) as [[s ->]|Hns].
      - rewrite (parse_order_date_string r _ s Hr). f_equal. by apply Hv.
      - by apply (parse_order_date_other r _ v Hr). }
    unfold validate_row. rewrite Hid, Hpid, Hq, Hp, Hd. cbn [negb].
    by destruct (email_fix r).
Qed.

(** X4: a row that comes through the price block and has no [order_date]
    key is not dropped as [unparseable_date]: [row["order_date"]] raises
    [KeyError], which the handler of the loop does not name. *)
Theorem validate_row_missing_order_date (r : row) n q fixed p issue :
  get_truthy r "order_id" = true → get_truthy r "product_id" = true →
  quantity_body r = Ok (q, fixed) → price_body r = Ok (p, issue) →
  r !! "order_date" = None →
  validate_row r n = Raise (KeyError "order_date").
Proof.
  intros Hid Hpid Hq Hp Hr. unfold validate_row.
  rewrite Hid, Hpid, Hq, Hp. cbn [negb].
  unfold date_formats. cbn [parse_order_date]. unfold row_index.
  rewrite Hr. by destruct (email_fix r).
Qed.

(** X5: [validate_row] raises in four situations only: the key
    [quantity] is absent, the key [order_date] is absent, [int()] of a
    float quantity raises something other than [ValueError] and
    [TypeError], or an [int] is too large to become a [float]
    ([OverflowError]). *)
Theorem validate_row_raises_only (r : row) n ex :
  validate_row r n = Raise ex →
  (ex = KeyError "quantity" ∧ r !! "quantity" = None) ∨
  (ex = KeyError "order_date" ∧ r !! "order_date" = None) ∨
  (∃ f, r !! "quantity" = Some (VFloat f) ∧ int_of_float f = Raise ex) ∨
  ex = OverflowError.
Proof.
  intros Hv. pose proof (validate_row_case r n) as Hcase. rewrite Hv in Hcase.
  inversion Hcase as [| |? | ? _ _ Hq Hc | | ? ? ? _ _ _ Hp Hc
                      | ? ? ? ? ? _ _ _ _ Hd | | ? ? ? ? ? ? _ _ _ _ _ Hm |];
    subst.
  - unfold quantity_body, row_index in Hq.
    destruct (r !! "quantity") as [v|] eqn:Hr.
    2:{ left. by injection Hq as <-. }
    rewrite bind_ok in Hq. destruct v as [|s|z|f|l]; cbn [py_int] in Hq.
    + injection Hq as <-. done.
    + destruct (int_of_string s) as [z|];
        [rewrite bind_ok in Hq; by destruct (z <=? 0)|].
      injection Hq as <-. done.
    + rewrite bind_ok in Hq. by destruct (z <=? 0).
    + right. right. left. exists f. split; [done|].
      destruct (int_of_float f) as [z|ex']; [|by injection Hq as <-].
      rewrite bind_ok in Hq. by destruct (z <=? 0).
    + injection Hq as <-. done.
  - unfold price_body, get_truthy, row_index in Hp.
    destruct (r !! "unit_price") as [v|].
    2:{ rewrite bind_ok in Hp.
        by destruct (flt_lt _ _); [|destruct (flt_eq _ _)]. }
    assert (Hfin : ∀ p0 : F,
      (if flt_lt p0 0 then Ok (flt_lit 0, Some "negative_price")
       else if flt_eq p0 0 then Ok (p0, Some "zero_price") else Ok (p0, None))
      ≠ (Raise ex : py (F * option string))).
    { intros p0. by destruct (flt_lt _ _); [|destruct (flt_eq _ _)]. }
    destruct (truthy v); [|rewrite bind_ok in Hp; by apply Hfin in Hp].
    rewrite bind_ok in Hp. destruct v as [|s|z|f|l]; cbn [py_float] in Hp.
    + injection Hp as <-. done.
    + destruct (float_of_string s); [rewrite bind_ok in Hp; by apply Hfin in Hp|].
      injection Hp as <-. done.
    + destruct (float_of_Z z); [rewrite bind_ok in Hp; by apply Hfin in Hp|].
      injection Hp as <-. by do 3 right.
    + rewrite bind_ok in Hp. by apply Hfin in Hp.
    + injection Hp as <-. done.
  - right. left. by apply parse_order_date_raises in Hd.
  - do 3 right. unfold int_mul_float in Hm.
    destruct (float_of_Z _); [done|]. by injection Hm as <-.
Qed.

(** X6: what [validate_row] returns has one of two shapes: a kept row
    with issues drawn, without repetition, from the four corrections; or
    no row and exactly one of the five fatal reasons. *)
Theorem validate_row_outcomes (r : row) n ok c issues :
  validate_row r n = Ok (ok, c, issues) →
  (ok = true ∧ is_Some c ∧ issues ⊆ correction_tags ∧ NoDup issues) ∨
  (ok = false ∧ c = None ∧ ∃ tag, issues = [tag] ∧ tag ∈ fatal_tags).
Proof.
  intros Hv. pose proof (validate_row_case r n) as Hcase. rewrite Hv in Hcase.
  inversion Hcase as [| | | | | | | | |? ? ? ? ? ? _ _ _ Hp _ _]; subst.
  1-5: right; do 2 (split; [done|]); eexists; split; [done|]; compute_done.
  left. do 2 (split; [done|]).
  apply price_body_issue in Hp as [_ Hissue].
  unfold cleaned_issues, email_fix.
  destruct Hissue as [-> | [-> | ->]];
    destruct (negb (get_truthy r "email")), fixed;
    cbn [fst snd app]; split; compute_done.
Qed.

Lemma accepted_fields (r : row) n c issues :
  validate_row r n = Ok (true, Some c, issues) →
  get_truthy c "order_id" = true ∧
  get_truthy c "product_id" = true ∧
  get_truthy c "email" = true ∧
  (∃ q, c !! "quantity" = Some (VInt q) ∧ 1 ≤ q) ∧
  (∃ p, c !! "unit_price" = Some (VFloat p) ∧ flt_lt p 0 = false) ∧
  (∃ s, c !! "order_date" = Some (VStr s)) ∧
  (∃ t, c !! "total" = Some (VFloat t)).
Proof.
  intros (q & fixed & p & issue & d & t & Hid & Hpid & Hq & Hp & _ & _ & -> & _)
    %validate_row_accepted.
  unfold get_truthy.
  rewrite !cleaned_row_other by compute_done. rewrite cleaned_row_email.
  split; [exact Hid|]. split; [exact Hpid|]. split.
  { unfold email_fix. destruct (get_truthy r "email") eqn:He; cbn [negb fst].
    - exact He.
    - by rewrite lookup_insert_eq. }
  split.
  { exists q. split; [apply cleaned_row_quantity|].
    apply quantity_body_inv in Hq as (v & z & _ & _ & -> & _).
    destruct (z <=? 0) eqn:Hz; [lia|]. apply Z.leb_gt in Hz. lia. }
  split.
  { exists p. split; [apply cleaned_row_unit_price|].
    by apply price_body_issue in Hp as [? _]. }
  split; [eexists; apply cleaned_row_order_date|].
  eexists; apply cleaned_row_total.
Qed.

(** X7: a row that [validate_row] keeps has a truthy [order_id],
    [product_id] and [email], an integer [quantity] of at least 1, a float
    [unit_price] that is not below zero, a string [order_date] and a
    float [total]. *)
Theorem validate_row_clean_record (r : row) n c issues :
  validate_row r n = Ok (true, Some c, issues) →
  get_truthy c "order_id" = true ∧
  get_truthy c "product_id" = true ∧
  get_truthy c "email" = true ∧
  (∃ q, c !! "quantity" = Some (VInt q) ∧ 1 ≤ q) ∧
  (∃ p, c !! "unit_price" = Some (VFloat p) ∧ flt_lt p 0 = false) ∧
  (∃ s, c !! "order_date" = Some (VStr s)) ∧
  (∃ t, c !! "total" = Some (VFloat t)).
Proof. apply accepted_fields. Qed.

Lemma detect_anomalies_fields (c : row) m q t :
  is_Some (c !! "order_id") →
  c !! "quantity" = Some (VInt q) → c !! "total" = Some (VFloat t) →
  detect_anomalies c m
    = Ok ((if flt_gt t 500 then ["high_value"] else [])
            ++ (if 20 <? q then ["high_quantity"] else []))%list.
Proof.
  intros [oid Hid] Hq Ht. unfold detect_anomalies, get_default, row_index.
  rewrite Hid, Ht, Hq.
  unfold HIGH_VALUE_ORDER_THRESHOLD, HIGH_QUANTITY_THRESHOLD.
  cbn -[flt_gt Z.ltb]. by destruct (flt_gt t 500), (20 <? q).
Qed.

(** X8: on a row that [validate_row] keeps, [detect_anomalies] does not
    raise, and flags [high_value] exactly when [total] is above 500 and
    [high_quantity] exactly when [quantity] is above 20, in that order. *)
Theorem detect_anomalies_on_clean (r : row) n m c issues :
  validate_row r n = Ok (true, Some c, issues) →
  ∃ q t,
    c !! "quantity" = Some (VInt q) ∧ c !! "total" = Some (VFloat t) ∧
    detect_anomalies c m
      = Ok ((if flt_gt t 500 then ["high_value"] else [])
              ++ (if 20 <? q then ["high_quantity"] else []))%list.
Proof.
  intros Hv. destruct (accepted_fields r n c issues Hv)
    as (Hid & _ & _ & (q & Hq & _) & _ & _ & (t & Ht)).
  exists q, t. split; [done|]. split; [done|].
  apply detect_anomalies_fields; [|done..].
  unfold get_truthy in Hid. by destruct (c !! "order_id").
Qed.

End ValidateMore.

Lemma validate_row_email_witness :
  validate_row Samples.order_no_email 1
    = Ok (true, Some (Samples.cleaned Samples.order_no_email), ["missing_email"])
  ∧ Samples.cleaned Samples.order_no_email !! "email"
    = Some (VStr "unknown@placeholder.com")
  ∧ Samples.cleaned Samples.order_a !! "email" = Samples.order_a !! "email".
Proof.
  split; [vm_compute; reflexivity|]. split.
  - apply (validate_row_email Samples.order_no_email 1 _ ["missing_email"]);
      vm_compute; reflexivity.
  - apply (validate_row_email Samples.order_a 1 _ []); vm_compute; reflexivity.
Defined.

Lemma validate_row_order_date_witness :
  parse_order_date Samples.order_a date_formats = Ok (first_format "2024-03-09")
  ∧ Samples.cleaned Samples.order_a !! "order_date" = Some (VStr "2024-03-09")
  ∧ validate_row Samples.order_bad_date 1 = Ok (false, None, ["unparseable_date"]).
Proof.
  split; [|split].
  - apply (proj1 (validate_row_order_date Samples.order_a 1)). reflexivity.
  - destruct (proj1 (proj2 (validate_row_order_date Samples.order_a 1))
                (Samples.cleaned Samples.order_a) [])
      as (s & d & Hs & Hd & ->); [vm_compute; reflexivity|].
    vm_compute in Hs. injection Hs as <-. vm_compute in Hd. injection Hd as <-.
    reflexivity.
  - apply (proj2 (proj2 (validate_row_order_date Samples.order_bad_date 1))
             (VStr "next week") 2 false 1250 None); try (vm_compute; reflexivity).
    intros s [= <-]. vm_compute; reflexivity.
Defined.

Lemma validate_row_missing_order_date_witness :
  validate_row Samples.order_no_date 1 = Raise (KeyError "order_date").
Proof.
  apply (validate_row_missing_order_date Samples.order_no_date 1 2 false 1250 None);
    vm_compute; reflexivity.
Defined.

Lemma validate_row_raises_only_witness :
  validate_row Samples.order_no_quantity 1 = Raise (KeyError "quantity")
  ∧ ((KeyError "quantity" = KeyError "quantity"
        ∧ Samples.order_no_quantity !! "quantity" = None) ∨
     (KeyError "quantity" = KeyError "order_date"
        ∧ Samples.order_no_quantity !! "order_date" = None) ∨
     (∃ f, Samples.order_no_quantity !! "quantity" = Some (VFloat f)
           ∧ int_of_float f = Raise (KeyError "quantity")) ∨
     KeyError "quantity" = OverflowError).
Proof.
  split; [vm_compute; reflexivity|].
  apply (validate_row_raises_only Samples.order_no_quantity 1). vm_compute; reflexivity.
Defined.

Lemma validate_row_outcomes_witness :
  validate_row Samples.order_b 1
    = Ok (true, Some (Samples.cleaned Samples.order_b), ["invalid_quantity"])
  ∧ ((true = true ∧ is_Some (Some (Samples.cleaned Samples.order_b))
        ∧ ["invalid_quantity"] ⊆ correction_tags ∧ NoDup ["invalid_quantity"]) ∨
     (true = false ∧ Some (Samples.cleaned Samples.order_b) = None
        ∧ ∃ tag, ["invalid_quantity"] = [tag] ∧ tag ∈ fatal_tags)).
Proof.
  split; [vm_compute; reflexivity|].
  apply (validate_row_outcomes Samples.order_b 1). vm_compute; reflexivity.
Defined.

Lemma validate_row_clean_record_witness :
  validate_row Samples.order_b 1
    = Ok (true, Some (Samples.cleaned Samples.order_b), ["invalid_quantity"])
  ∧ ∃ q, Samples.cleaned Samples.order_b !! "quantity" = Some (VInt q) ∧ 1 ≤ q.
Proof.
  split; [vm_compute; reflexivity|].
  apply (validate_row_clean_record Samples.order_b 1 _ ["invalid_quantity"]).
  vm_compute; reflexivity.
Defined.

Lemma detect_anomalies_on_clean_witness :
  validate_row Samples.order_big 1
    = Ok (true, Some (Samples.cleaned Samples.order_big), [])
  ∧ detect_anomalies (Samples.cleaned Samples.order_big) 1
    = Ok ["high_value"; "high_quantity"].
Proof.
  split; [vm_compute; reflexivity|].
  destruct (detect_anomalies_on_clean Samples.order_big 1 1
              (Samples.cleaned Samples.order_big) [])
    as (q & t & Hq & Ht & ->); [vm_compute; reflexivity|].
  vm_compute in Hq. injection Hq as <-. vm_compute in Ht. injection Ht as <-.
  reflexivity.
Defined.

(* ===================================================================== *)
(** ** More on [check_duplicates] and [enrich_with_products] *)
(* ===================================================================== *)

Section TransformMore.

Context {F D : Type} `{Countable F} {RT : PyRuntime F D}.

Abbreviation row := (gmap string (value F)).

(** *** The [seen] dict *)

Lemma dedup_step_seen_inv (st st' : dedup_state) (r : row) :
  seen_inv st → dedup_step st r = Ok st' → seen_inv st'.
Proof.
  intros [Hto Hfrom] Hstep.
  destruct (dedup_step_ok_keyed _ _ _ Hstep) as (k & Hr & Hh).
  rewrite (dedup_step_keyed st r k Hr Hh) in Hstep.
  destruct (seen st !! k) as [pos|] eqn:Hs; injection Hstep as <-; [done|].
  split; cbn [seen unique_rows].
  - intros k' i. destruct (decide (k = k')) as [<-|Hne].
    + rewrite lookup_insert_eq. intros [= <-]. exists r.
      split; [|done]. by rewrite lookup_app_r, Nat.sub_diag.
    + rewrite lookup_insert_ne by done. intros (r' & Hi & Hr')%Hto.
      exists r'. split; [|done]. rewrite lookup_app_l; [done|].
      by eapply lookup_lt_Some.
  - intros i r' k' Hi Hr'.
    destruct (decide (i < length (unique_rows st))%nat) as [Hlt|Hge].
    + rewrite lookup_app_l in Hi by done.
      pose proof (Hfrom i r' k' Hi Hr') as Hs'.
      rewrite lookup_insert_ne; [done|]. intros <-. congruence.
    + rewrite lookup_app_r in Hi by lia.
      apply list_lookup_singleton_Some in Hi as [Hi <-].
      assert (k' = k) as -> by congruence.
      rewrite lookup_insert_eq. f_equal. lia.
Qed.

Lemma dedup_loop_seen_inv (rows : list row) (st st' : dedup_state) :
  seen_inv st → for_loop dedup_step st rows = Ok st' → seen_inv st'.
Proof.
  revert st. induction rows as [|r rest IH]; intros st Hinv; cbn [for_loop].
  - by intros [= <-].
  - destruct (dedup_step st r) as [st1|] eqn:Hstep; [|done]. rewrite bind_ok.
    apply IH. by eapply dedup_step_seen_inv.
Qed.

(** X9: when the loop of [check_duplicates] ends, [seen] maps each
    [order_id] to the position in [unique_rows] of the row kept for it,
    and every kept row is filed there: the position a duplicate warning
    reports is that of the first occurrence. *)
Theorem check_duplicates_seen_positions (rows : list row) (st : dedup_state) :
  dedup_run rows = Ok st →
  ∀ k i, seen st !! k = Some i
         ↔ ∃ r, unique_rows st !! i = Some r ∧ r !! "order_id" = Some k.
Proof.
  intros Hrun. unfold dedup_run in Hrun.
  apply dedup_loop_seen_inv in Hrun as [Hto Hfrom].
  - intros k i. split; [apply Hto|]. intros (r & Hi & Hr). by eapply Hfrom.
  - split; cbn; [intros k i; by rewrite lookup_empty|intros i r k; by rewrite lookup_nil].
Qed.

(** X10: [check_duplicates] returns exactly when every row has an
    [order_id] that can be hashed; otherwise it raises. *)
Theorem check_duplicates_returns_iff (rows : list row) :
  (∃ unique, check_duplicates rows = Ok unique) ↔ Forall keyed rows.
Proof.
  unfold check_duplicates, dedup_run. split.
  - intros [unique Hrun].
    destruct (for_loop dedup_step _ rows) as [st|] eqn:Hloop; [|done].
    by eapply dedup_loop_ok_keyed.
  - intros Hk.
    destruct (dedup_loop_spec rows
                {| seen := ∅; unique_rows := []; duplicate_count := 0 |} [] Hk)
      as (st & Hrun & _).
    { intros k. cbn. rewrite lookup_empty, elem_of_nil. split; [by intros []|done]. }
    exists (unique_rows st). by rewrite Hrun.
Qed.

(** *** Enrichment, row by row *)

Lemma enrich_run_rows (rows catalog enriched : list row) (missing : gset (value F)) :
  enrich_run rows catalog = Ok (enriched, missing) →
  Forall2 enriched_from rows enriched.
Proof.
  unfold enrich_run. destruct (build_lookup catalog) as [lk|]; [|done].
  rewrite bind_ok.
  destruct (for_loop (enrich_step lk) _ rows) as [[en mi]|] eqn:Hloop; [|done].
  rewrite bind_ok. destruct (sortable _); [|done]. intros [= -> ->].
  destruct (enrich_loop_spec _ _ _ _ _ _ Hloop) as (out & -> & Hlen & Hrows & _).
  rewrite app_nil_l. apply Forall2_same_length_lookup. split; [done|].
  intros i r e Hi He. destruct (Hrows i r Hi) as (pid & _ & Hcase).
  destruct (lk !! pid).
  - destruct Hcase as (name & category & stock & _ & _ & _ & Hout).
    right. exists name, category, stock. congruence.
  - destruct Hcase as [Hout _]. left. congruence.
Qed.

Lemma enriched_from_lookup (r e : row) k :
  enriched_from r e →
  k ∉ ["product_name"; "category"; "current_stock"] → e !! k = r !! k.
Proof.
  intros He Hk.
  assert (k ≠ "product_name" ∧ k ≠ "category" ∧ k ≠ "current_stock")
    as (H1 & H2 & H3).
  { repeat split; intros ->; apply Hk; repeat constructor. }
  destruct He as [->|(name & category & stock & ->)];
    unfold unknown_product, known_product; by rewrite !lookup_insert_ne.
Qed.

Lemma enriched_from_keys (r e : row) :
  enriched_from r e →
  is_Some (e !! "product_name") ∧ is_Some (e !! "category") ∧
  is_Some (e !! "current_stock").
Proof.
  intros [->|(name & category & stock & ->)];
    unfold unknown_product, known_product.
  all: rewrite lookup_insert_eq.
  all: rewrite (lookup_insert_ne _ "current_stock" "category"), lookup_insert_eq by done.
  all: rewrite !(lookup_insert_ne _ _ "product_name"), lookup_insert_eq by done.
  all: eauto.
Qed.

(** X12: [enrich_with_products] returns as many rows as it is given, in
    the same order, and changes nothing of a row but [product_name],
    [category] and [current_stock], which every returned row has. *)
Theorem enrich_with_products_frame (rows catalog enriched : list row)
    (missing : gset (value F)) :
  enrich_run rows catalog = Ok (enriched, missing) →
  length enriched = length rows ∧
  ∀ i r e, rows !! i = Some r → enriched !! i = Some e →
    (∀ k, k ∉ ["product_name"; "category"; "current_stock"] → e !! k = r !! k) ∧
    is_Some (e !! "product_name") ∧ is_Some (e !! "category") ∧
    is_Some (e !! "current_stock").
Proof.
  intros Hrel%enrich_run_rows. split; [symmetry; by eapply Forall2_length|].
  intros i r e Hi He.
  pose proof (Forall2_lookup_lr _ _ _ _ _ _ Hrel Hi He) as Hfrom.
  split; [intros k; by apply (enriched_from_lookup r)|by apply (enriched_from_keys r)].
Qed.

(** *** When enrichment returns *)

Lemma lookup_loop_total (catalog : list row) (m : gmap (value F) row) :
  Forall catalog_entry_ok catalog →
  (∀ k p, m !! k = Some p → catalog_entry_ok p) →
  ∃ lk, for_loop lookup_step m catalog = Ok lk ∧
        ∀ k p, lk !! k = Some p → catalog_entry_ok p.
Proof.
  revert m. induction catalog as [|p rest IH]; intros m Hcat Hm; [by exists m|].
  apply Forall_cons in Hcat as [Hp Hcat]. cbn [for_loop].
  assert (Hstep : ∃ pid, lookup_step m p = Ok (<[pid := p]> m)).
  { destruct Hp as (pid & name & category & stock & Hpid & Hh & _).
    exists pid. unfold lookup_step, row_index. by rewrite Hpid, bind_ok, Hh. }
  destruct Hstep as [pid ->]. rewrite bind_ok. apply IH; [done|].
  intros k p'. destruct (decide (pid = k)) as [->|Hne].
  - rewrite lookup_insert_eq. by intros [= <-].
  - rewrite lookup_insert_ne by done. apply Hm.
Qed.

Lemma enrich_loop_total (lk : gmap (value F) row) (rows : list row) acc
    (miss : gset (value F)) :
  (∀ k p, lk !! k = Some p → catalog_entry_ok p) →
  Forall enrichable rows →
  (∀ x, x ∈ miss → ∃ s, x = VStr s) →
  ∃ en mi, for_loop (enrich_step lk) (acc, miss) rows = Ok (en, mi) ∧
           ∀ x, x ∈ mi → ∃ s, x = VStr s.
Proof.
  intros Hlk. revert acc miss.
  induction rows as [|r rest IH]; intros acc miss Hrows Hmiss; [by exists acc, miss|].
  apply Forall_cons in Hrows as [[[oid Hoid] [s Hpid]] Hrows]. cbn [for_loop].
  assert (Hstep : ∃ acc' miss', enrich_step lk (acc, miss) r = Ok (acc', miss') ∧
                                ∀ x, x ∈ miss' → ∃ s, x = VStr s).
  { unfold enrich_step, row_index. rewrite Hpid, bind_ok. cbn [hash_key].
    rewrite bind_ok. destruct (lk !! VStr s) as [product|] eqn:Hl.
    - destruct (Hlk _ _ Hl) as (pid & name & category & stock & _ & _
                                & -> & -> & -> & Hstock).
      rewrite !bind_ok. rewrite !lookup_insert_ne by done. rewrite Hoid, bind_ok.
      destruct Hstock as [[z ->]|[f ->]]; cbn [py_lt]; rewrite bind_ok; eauto.
    - eexists _, _. split; [done|]. intros x [Hx|Hx]%elem_of_union; [eauto|].
      apply elem_of_singleton in Hx as ->. eauto. }
  destruct Hstep as (acc' & miss' & -> & Hmiss'). rewrite bind_ok. by apply IH.
Qed.

Lemma sortable_strings (l : list (value F)) :
  (∀ x, x ∈ l → ∃ s, x = VStr s) → sortable l = true.
Proof.
  intros Hl. destruct l as [|v [|w l]]; [done..|].
  cbn [sortable]. destruct (Hl v) as [s ->]; [by left|]. cbn [sort_class negb andb].
  apply forallb_forall. intros x Hx%list_elem_of_In.
  destruct (Hl x) as [s' ->]; [by right|]. done.
Qed.

(** X11: [enrich_with_products] returns, without raising, whenever
    every catalog entry has a hashable [product_id], a [name], a
    [category] and a numeric [stock], and every row has an [order_id] and
    a string [product_id]. *)
Theorem enrich_with_products_returns (rows catalog : list row) :
  Forall catalog_entry_ok catalog → Forall enrichable rows →
  ∃ enriched, enrich_with_products rows catalog = Ok enriched
              ∧ length enriched = length rows.
Proof.
  intros Hcat Hrows.
  destruct (lookup_loop_total catalog ∅ Hcat) as (lk & Hlk & Hok).
  { intros k p. by rewrite lookup_empty. }
  destruct (enrich_loop_total lk rows [] ∅ Hok Hrows) as (en & mi & Hloop & Hmi).
  { intros x Hx. by apply not_elem_of_empty in Hx. }
  assert (Hrun : enrich_run rows catalog = Ok (en, mi)).
  { unfold enrich_run, build_lookup. rewrite Hlk, bind_ok, Hloop, bind_ok.
    rewrite sortable_strings; [done|]. intros x Hx. apply Hmi.
    by apply elem_of_elements. }
  exists en. split; [unfold enrich_with_products; by rewrite Hrun|].
  apply enrich_run_rows in Hrun. symmetry. by eapply Forall2_length.
Qed.

End TransformMore.

(* ===================================================================== *)
(** ** More on [run_transformation] *)
(* ===================================================================== *)

Section TransformationMore.

Context {F D : Type} `{Countable F} {RT : PyRuntime F D}.

Abbreviation row := (gmap string (value F)).

Lemma validate_step_inv (st st' : validation_state (F:=F)) i (r : row) :
  validate_step st (i, r) = Ok st' →
  (∃ c issues, validate_row r i = Ok (true, Some c, issues) ∧
               valid_rows st' = (valid_rows st ++ [c])%list) ∨
  valid_rows st' = valid_rows st.
Proof.
  unfold validate_step.
  destruct (validate_row r i) as [[[ok c] issues]|]; [|done]. rewrite bind_ok.
  destruct ok, c as [c|]; intros [= <-]; cbn [valid_rows]; eauto.
Qed.

Lemma validate_loop_rows (l : list row) start (st st' : validation_state (F:=F)) :
  for_loop validate_step st (enumerate l start) = Ok st' →
  ∃ new, valid_rows st' = (valid_rows st ++ new)%list ∧
    (length new ≤ length l)%nat ∧
    Forall (λ c, ∃ j r issues, l !! j = Some r ∧
                 validate_row r (start + j) = Ok (true, Some c, issues)) new.
Proof.
  revert start st. induction l as [|r rest IH]; intros start st.
  - cbn. intros [= <-]. exists []. by rewrite app_nil_r.
  - rewrite enumerate_cons. cbn [for_loop].
    destruct (validate_step st (start, r)) as [st1|] eqn:Hstep; [|done].
    rewrite bind_ok. intros (new & Hv & Hlen & Hnew)%IH.
    assert (Hshift : Forall (λ c, ∃ j r0 issues, (r :: rest) !! j = Some r0 ∧
              validate_row r0 (start + j) = Ok (true, Some c, issues)) new).
    { eapply Forall_impl; [exact Hnew|]. intros c (j & r0 & issues & Hj & Hc).
      exists (S j), r0, issues. split; [done|]. by rewrite Nat.add_succ_r. }
    apply validate_step_inv in Hstep as [(c & issues & Hc & Hst1)|Hst1].
    + exists (c :: new). rewrite Hv, Hst1, <- app_assoc. split; [done|].
      split; [cbn; lia|]. constructor; [|done].
      exists 0%nat, r, issues. by rewrite Nat.add_0_r.
    + exists new. rewrite Hv, Hst1. split; [done|]. split; [cbn; lia|done].
Qed.

Lemma flag_loop_rows (l : list row) start acc n out n' :
  for_loop flag_step (acc, n) (enumerate l start) = Ok (out, n') →
  ∃ new, out = (acc ++ new)%list ∧
    Forall2 (λ c f : row, ∃ alerts, f = <["anomaly_flags" := VList alerts]> c) l new.
Proof.
  revert start acc n. induction l as [|r rest IH]; intros start acc n.
  - cbn. intros [= <- <-]. exists []. rewrite app_nil_r. split; [done|].
    apply Forall2_nil_2.
  - rewrite enumerate_cons. cbn [for_loop].
    destruct (flag_step (acc, n) (start, r)) as [[acc1 n1]|] eqn:Hstep; [|done].
    rewrite bind_ok. intros (new & -> & Hnew)%IH.
    apply flag_step_inv in Hstep as (alerts & ->).
    exists (<["anomaly_flags" := VList alerts]> r :: new).
    rewrite <- app_assoc. split; [done|]. apply Forall2_cons_2; [|done].
    by exists alerts.
Qed.

Lemma flagged_enriched (c f e : row) :
  (∃ alerts, f = <["anomaly_flags" := VList alerts]> c) →
  enriched_from f e → adds_enrichment c e.
Proof.
  intros [alerts ->] He. split.
  - intros k Hk. rewrite (enriched_from_lookup _ e k He).
    + rewrite lookup_insert_ne; [done|]. intros <-. apply Hk. repeat constructor.
    + intros Hin. apply Hk. unfold enrichment_keys. by right.
  - destruct (enriched_from_keys _ e He) as (H1 & H2 & H3).
    unfold enrichment_keys. repeat constructor; try done.
    rewrite (enriched_from_lookup _ e "anomaly_flags" He) by compute_done.
    rewrite lookup_insert_eq. eauto.
Qed.

(** How the rows [run_transformation] returns come about. *)
Lemma run_transformation_rows (extracted_data : extracted) (out : list row) :
  run_transformation extracted_data = Ok out →
  ∃ valid unique,
    (length valid ≤ length (sales_data extracted_data))%nat ∧
    Forall (λ c, ∃ j r issues, sales_data extracted_data !! j = Some r ∧
                 validate_row r (S j) = Ok (true, Some c, issues)) valid ∧
    unique `sublist_of` valid ∧
    Forall2 adds_enrichment unique out.
Proof.
  unfold run_transformation, validate_all.
  destruct (for_loop validate_step _ _) as [vst|] eqn:Hval; [|done].
  rewrite bind_ok. unfold check_duplicates, dedup_run.
  destruct (for_loop dedup_step _ (valid_rows vst)) as [dst|] eqn:Hdedup; [|done].
  rewrite !bind_ok.
  destruct (for_loop flag_step _ _) as [[flagged count]|] eqn:Hflag; [|done].
  rewrite bind_ok. unfold enrich_with_products.
  destruct (enrich_run flagged _) as [[enriched missing]|] eqn:Hen; [|done].
  rewrite bind_ok. intros [= <-].
  apply validate_loop_rows in Hval as (valid & Hvalid & Hlen & Hprov).
  cbn [valid_rows app] in Hvalid. rewrite Hvalid in Hdedup.
  apply flag_loop_rows in Hflag as (new & -> & Hflag). rewrite app_nil_l in Hen.
  apply enrich_run_rows in Hen.
  assert (Hk := dedup_loop_ok_keyed _ _ _ Hdedup).
  destruct (dedup_loop_spec valid
              {| seen := ∅; unique_rows := []; duplicate_count := 0 |} [] Hk)
    as (dst' & Hrun & Hu & _).
  { intros k. cbn. rewrite lookup_empty, elem_of_nil. split; [by intros []|done]. }
  rewrite Hdedup in Hrun. injection Hrun as <-. cbn [unique_rows app] in Hu.
  exists valid, (unique_rows dst). split; [done|]. split; [by cbn in Hprov|].
  split; [rewrite Hu; apply first_occurrences_sublist|].
  eapply Forall2_trans; [|exact Hflag|exact Hen].
  intros c f e. apply flagged_enriched.
Qed.

Lemma transformed_rows_sources (extracted_data : extracted) (out : list row) :
  run_transformation extracted_data = Ok out →
  (length out ≤ length (sales_data extracted_data))%nat ∧
  Forall (λ r', ∃ j r c issues,
            sales_data extracted_data !! j = Some r ∧
            validate_row r (S j) = Ok (true, Some c, issues) ∧
            adds_enrichment c r') out.
Proof.
  intros (valid & unique & Hlen & Hprov & Hsub & Hrel)%run_transformation_rows.
  split.
  - rewrite <- (Forall2_length _ _ _ Hrel).
    apply sublist_length in Hsub. lia.
  - eapply Forall2_Forall_r; [exact Hrel|].
    rewrite Forall_forall in Hprov |- *. intros c Hc r' Hadd.
    destruct (Hprov c) as (j & r & issues & Hj & Hv); [by eapply elem_of_sublist|].
    by exists j, r, c, issues.
Qed.

(** X13: every row [run_transformation] returns is a row of
    [sales_data] that [validate_row] accepted, as cleaned, with the four
    keys [anomaly_flags], [product_name], [category] and [current_stock]
    set and nothing else changed; and it returns no more rows than it is
    given. *)
Theorem run_transformation_provenance (extracted_data : extracted) (out : list row) :
  run_transformation extracted_data = Ok out →
  (length out ≤ length (sales_data extracted_data))%nat ∧
  Forall (λ r', ∃ j r c issues,
            sales_data extracted_data !! j = Some r ∧
            validate_row r (S j) = Ok (true, Some c, issues) ∧
            adds_enrichment c r') out.
Proof. apply transformed_rows_sources. Qed.

(** *** From the transformer to the loader *)

Lemma bind_param_raises (v : value F) ex :
  bind_param v = Raise ex → ex = InterfaceError ∨ ex = OverflowError.
Proof.
  destruct v as [| |z| |]; cbn [bind_param]; try done.
  - destruct (_ && _); [done|]. intros [= <-]. by right.
  - intros [= <-]. by left.
Qed.

Lemma row_params_no_keyerror (r : row) :
  Forall (λ k, is_Some (r !! k)) indexed_keys →
  ∀ k, row_params r ≠ Raise (KeyError k).
Proof.
  unfold indexed_keys. intros Hkeys k.
  repeat match goal with
         | H : Forall _ (_ :: _) |- _ => apply Forall_cons in H as [[? ?] H]
         end.
  unfold row_params, row_index.
  repeat match goal with
         | H : r !! _ = Some _ |- _ => rewrite H; clear H
         end.
  rewrite !bind_ok.
  repeat match goal with
         | |- context [bind_param ?v] =>
             let E := fresh "E" in
             destruct (bind_param v) eqn:E;
             [rewrite bind_ok
             |rewrite ?bind_raise; intros [= ->];
              by destruct (bind_param_raises _ _ E)]
         end.
  done.
Qed.

Lemma indexed_not_enrichment (k : string) :
  k ∈ indexed_keys → k ∉ enrichment_keys.
Proof.
  unfold indexed_keys, enrichment_keys.
  rewrite !elem_of_cons, !elem_of_nil. intros Hk Hin.
  repeat (destruct Hk as [->|Hk]; [intuition discriminate|]). done.
Qed.

Lemma adds_enrichment_indexed (c r' : row) k :
  adds_enrichment c r' → k ∈ indexed_keys → r' !! k = c !! k.
Proof. intros [Hsame _] Hk. apply Hsame. by apply indexed_not_enrichment. Qed.

Lemma get_truthy_is_Some (r : row) k : get_truthy r k = true → is_Some (r !! k).
Proof. unfold get_truthy. destruct (r !! k); [eauto|done]. Qed.

(** X15: the keys [load_batch] reads with [row[...]] are on every row
    [run_transformation] returns, but for [customer_name] and
    [payment_method], which a returned row has exactly when its source
    row has them: with both on the source row the parameters of the
    insert are built without [KeyError]; without [customer_name] on the
    source row, building them raises [KeyError]. *)
Theorem run_transformation_loadable (extracted_data : extracted) (out : list row) :
  run_transformation extracted_data = Ok out →
  Forall (λ r', ∃ j r,
            sales_data extracted_data !! j = Some r ∧
            (is_Some (r !! "customer_name") → is_Some (r !! "payment_method") →
             ∀ k, row_params r' ≠ Raise (KeyError k)) ∧
            (r !! "customer_name" = None →
             row_params r' = Raise (KeyError "customer_name"))) out.
Proof.
  intros [_ Hsrc]%transformed_rows_sources.
  eapply Forall_impl; [exact Hsrc|]. cbn beta.
  intros r' (j & r & c & issues & Hj & Hv & Hadd).
  exists j, r. split; [done|].
  destruct (accepted_fields r (S j) c issues Hv)
    as (Hid%get_truthy_is_Some & Hpid%get_truthy_is_Some
        & Hem%get_truthy_is_Some & (q & Hq & _) & (p & Hp & _)
        & (s & Hs) & (t & Ht)).
  apply validate_row_accepted in Hv
    as (q' & fixed & p' & issue & d & t' & _ & _ & _ & _ & _ & _ & Hc & _).
  assert (Hcn : c !! "customer_name" = r !! "customer_name")
    by (rewrite Hc; apply cleaned_row_other; compute_done).
  assert (Hpm : c !! "payment_method" = r !! "payment_method")
    by (rewrite Hc; apply cleaned_row_other; compute_done).
  split.
  - intros Hrcn Hrpm. apply row_params_no_keyerror.
    unfold indexed_keys. repeat apply Forall_cons_2; try apply Forall_nil_2.
    all: rewrite (adds_enrichment_indexed c r' _ Hadd) by compute_done.
    all: rewrite ?Hq, ?Hp, ?Hs, ?Ht, ?Hcn, ?Hpm; eauto.
  - intros Hnone. unfold row_params, row_index.
    rewrite (adds_enrichment_indexed c r' "order_id" Hadd) by compute_done.
    destruct Hid as [oid ->]. rewrite bind_ok.
    rewrite (adds_enrichment_indexed c r' "customer_name" Hadd) by compute_done.
    by rewrite Hcn, Hnone.
Qed.

End TransformationMore.
